(** * Search console: result view, pagination and request handling

    A shallow embedding of the client-side search console:
    - [lib/api.ts]: the record types exchanged with the search service;
    - [components/ResultsTable.tsx]: the derived values [filteredResults],
      [totalPages], [startIndex], [endIndex], [paginatedResults] and the
      handlers [goToPage] and [copyAllResults];
    - [app/page.tsx]: the state owned by [Home] and its handlers
      [handleSearch] and [handleReset].

    Conventions.  JavaScript strings are modelled as [string]; array lengths
    and page numbers are integers ([Z]): an array length is below 2^32, so
    the floating-point quotient [length / 100] has the same ceiling as the
    exact one.  React state is passed explicitly; what a handler does to
    the outside world (network request, clipboard, console, scrolling) is
    returned as a list of [Effect]s. *)

From Stdlib Require Import ZArith List String Ascii Bool Lia.
From Stdlib Require Import Decimal DecimalString DecimalZ DecimalPos FinFun.
Import ListNotations.

Local Open Scope string_scope.
Local Open Scope Z_scope.

(** ** The JavaScript built-ins used by the components *)

Module JS.

(** [String.prototype.toLowerCase], on the ASCII range: the letters
    [A]..[Z] are mapped to [a]..[z], every other character is kept.
    The built-in also lowercases the letters outside ASCII, some of
    them depending on their neighbours (the Greek final sigma), so it
    does not distribute over concatenation; nothing below relies on
    that. *)
Definition lowerChar (c : ascii) : ascii :=
  let n := N_of_ascii c in
  if (65 <=? n)%N && (n <=? 90)%N then ascii_of_N (n + 32) else c.

Fixpoint toLowerCase (s : string) : string :=
  match s with
  | EmptyString => EmptyString
  | String c s' => String (lowerChar c) (toLowerCase s')
  end.

(** [s.startsWith(p)]: used to define [includes]. *)
Fixpoint startsWith (s p : string) {struct p} : bool :=
  match p, s with
  | EmptyString, _ => true
  | String _ _, EmptyString => false
  | String b p', String a s' => Ascii.eqb a b && startsWith s' p'
  end.

(** [s.includes(sub)]: [sub] occurs in [s] at some position. *)
Fixpoint includes (s sub : string) : bool :=
  startsWith s sub ||
  match s with
  | EmptyString => false
  | String _ s' => includes s' sub
  end.

(** White space removed by [trim], on the ASCII range: TAB, LF, VT, FF,
    CR and SPACE.  The built-in also removes the white space outside
    ASCII (U+00A0 and the like). *)
Definition isSpace (c : ascii) : bool :=
  let n := N_of_ascii c in
  ((9 <=? n)%N && (n <=? 13)%N) || (n =? 32)%N.

Fixpoint trimStart (s : string) : string :=
  match s with
  | EmptyString => EmptyString
  | String c s' => if isSpace c then trimStart s' else s
  end.

(** Drops trailing white space: a character is kept when it is not a
    space or when something is kept after it. *)
Fixpoint trimEnd (s : string) : string :=
  match s with
  | EmptyString => EmptyString
  | String c s' =>
      match trimEnd s' with
      | EmptyString => if isSpace c then EmptyString else String c EmptyString
      | t => String c t
      end
  end.

Definition trim (s : string) : string := trimEnd (trimStart s).

(** Truthiness of a string: the empty string is falsy. *)
Definition truthy (s : string) : bool :=
  match s with EmptyString => false | String _ _ => true end.

(** [Array.prototype.join(sep)] on an array of strings. *)
Fixpoint join (sep : string) (l : list string) : string :=
  match l with
  | [] => EmptyString
  | [x] => x
  | x :: rest => (x ++ sep ++ join sep rest)%string
  end.

(** [Array.prototype.slice(start, end)]: a negative index counts from
    the end of the array, both indices are clamped to [0, length], and
    an empty range gives the empty array. *)
Definition slice {A : Type} (l : list A) (start end_ : Z) : list A :=
  let len := Z.of_nat (List.length l) in
  let k := if start <? 0 then Z.max (len + start) 0 else Z.min start len in
  let final := if end_ <? 0 then Z.max (len + end_) 0 else Z.min end_ len in
  firstn (Z.to_nat (final - k)) (skipn (Z.to_nat k) l).

(** [Math.ceil(n / d)] for integers [n] and [d > 0]. *)
Definition ceilDiv (n d : Z) : Z := - ((- n) / d).

Definition TAB : string := String (ascii_of_nat 9) EmptyString.
Definition NEWLINE : string := String (ascii_of_nat 10) EmptyString.

(** [String(n)] for an integer [n], as a template literal prints it:
    the decimal digits, after a minus sign when [n] is negative. *)
Definition numberToString (n : Z) : string :=
  NilZero.string_of_int (Z.to_int n).

(** [array.map((x, index) => f(x, index))], the first index being [i]. *)
Fixpoint mapIndexed {A B : Type} (f : A -> Z -> B) (l : list A) (i : Z)
  : list B :=
  match l with
  | [] => []
  | x :: rest => f x i :: mapIndexed f rest (i + 1)
  end.

End JS.

(** ** lib/api.ts *)

Module Api.

Record SearchResult := mkSearchResult {
  master_id : string;
  mobile : string;
  alt : string;
  name : string;
  fname : string;
  address : string;
  email : string
}.

(** The numbers of a response are only stored and shown; the handlers
    never compute with them. *)
Record SearchResponse := mkSearchResponse {
  results : list SearchResult;
  total_matches : Z;
  results_returned : Z;
  query_parse_time_ms : Z;
  search_execution_time_ms : Z;
  document_retrieval_time_ms : Z;
  total_time_ms : Z
}.

(** The request body, an object built key by key: its entries in
    insertion order. *)
Definition SearchRequest := list (string * string).

End Api.

(** What a handler does besides updating state. *)
Inductive Effect :=
| Request (payload : Api.SearchRequest)   (* searchAPI(payload) *)
| ClipboardWrite (text : string)          (* navigator.clipboard.writeText *)
| ConsoleError (label : string)           (* console.error(label, err) *)
| ScrollToTop.                            (* window.scrollTo({top: 0, ...}) *)

(** ** components/ResultsTable.tsx *)

Module ResultsTable.
Import Api.

Definition RESULTS_PER_PAGE : Z := 100.

(** The state of the component: the two [useState] cells, and the
    dependency remembered by [useMemo(..., [filterText])]. *)
Record State := mkState {
  copiedId : option string;
  currentPage : Z;
  memoFilterText : string
}.

(** The callback given to [results.filter]. *)
Definition matchesFilter (searchText : string) (result : SearchResult) : bool :=
  JS.includes (JS.toLowerCase (master_id result)) searchText ||
  JS.includes (JS.toLowerCase (name result)) searchText ||
  JS.includes (JS.toLowerCase (fname result)) searchText ||
  JS.includes (JS.toLowerCase (mobile result)) searchText ||
  JS.includes (JS.toLowerCase (alt result)) searchText ||
  JS.includes (JS.toLowerCase (email result)) searchText ||
  JS.includes (JS.toLowerCase (address result)) searchText.

Definition filteredResults (results : list SearchResult) (filterText : string)
  : list SearchResult :=
  if negb (JS.truthy filterText) then results
  else
    let searchText := JS.toLowerCase filterText in
    List.filter (matchesFilter searchText) results.

Definition totalPages (filtered : list SearchResult) : Z :=
  JS.ceilDiv (Z.of_nat (List.length filtered)) RESULTS_PER_PAGE.

Definition startIndex (currentPage : Z) : Z :=
  (currentPage - 1) * RESULTS_PER_PAGE.

Definition endIndex (currentPage : Z) : Z :=
  startIndex currentPage + RESULTS_PER_PAGE.

Definition paginatedResults (filtered : list SearchResult) (currentPage : Z)
  : list SearchResult :=
  JS.slice filtered (startIndex currentPage) (endIndex currentPage).

(** [goToPage], closed over the [totalPages] of the current render. *)
Definition goToPage (totalPages page : Z) (st : State) : State * list Effect :=
  if (1 <=? page) && (page <=? totalPages) then
    ({| copiedId := copiedId st;
        currentPage := page;
        memoFilterText := memoFilterText st |},
     [ScrollToTop])
  else (st, []).

(** The line written for one record by [copyAllResults]. *)
Definition rowText (r : SearchResult) : string :=
  (master_id r ++ JS.TAB ++ name r ++ JS.TAB ++ fname r ++ JS.TAB ++
   mobile r ++ JS.TAB ++ alt r ++ JS.TAB ++ email r ++ JS.TAB ++ address r)%string.

(** [copyAllResults] reads the [results] prop only.  [clipboardOk] says
    whether the clipboard accepts the text; a refusal is caught and
    logged. *)
Definition copyAllResults (results : list SearchResult) (clipboardOk : bool)
  : list Effect :=
  let text := JS.join JS.NEWLINE (List.map rowText results) in
  ClipboardWrite text ::
  (if clipboardOk then [] else [ConsoleError "Failed to copy all:"]).

(** First render of a freshly mounted table: [useState(1)], and the
    memo runs once with the current filter ([setCurrentPage(1)]). *)
Definition mount (filterText : string) : State :=
  {| copiedId := None; currentPage := 1; memoFilterText := filterText |}.

(** Re-render of a mounted table: the memo runs again, and resets the
    page, only when its dependency [filterText] differs from the one
    of the previous render. *)
Definition rerender (filterText : string) (st : State) : State :=
  if String.eqb (memoFilterText st) filterText then st
  else {| copiedId := copiedId st;
          currentPage := 1;
          memoFilterText := filterText |}.

(** The header line "Showing a-b of n filtered results":
    [startIndex + 1] and [Math.min(endIndex, filteredResults.length)]. *)
Definition showingFrom (currentPage : Z) : Z := startIndex currentPage + 1.

Definition showingTo (filtered : list SearchResult) (currentPage : Z) : Z :=
  Z.min (endIndex currentPage) (Z.of_nat (List.length filtered)).

(** The key and copy id of a row: master_id, mobile and the position of
    the row in the filtered sequence, separated by dashes. *)
Definition rowId (currentPage : Z) (result : SearchResult) (index : Z) : string :=
  (master_id result ++ "-" ++ mobile result ++ "-" ++
   JS.numberToString (startIndex currentPage + index))%string.

(** The row ids of the page shown, in row order
    ([paginatedResults.map((result, index) => ...)]). *)
Definition rowIds (filtered : list SearchResult) (currentPage : Z) : list string :=
  JS.mapIndexed (rowId currentPage) (paginatedResults filtered currentPage) 0.

(** [copyToClipboard(text, id)]: on success the row is remembered in
    [copiedId] (a timer clears it 2 s later); a refusal of the clipboard
    is caught and logged. *)
Definition copyToClipboard (text id : string) (clipboardOk : bool) (st : State)
  : State * list Effect :=
  if clipboardOk then
    ({| copiedId := Some id;
        currentPage := currentPage st;
        memoFilterText := memoFilterText st |},
     [ClipboardWrite text])
  else (st, [ClipboardWrite text; ConsoleError "Failed to copy:"]).

(** [copiedId === rowId]: the row's copy button is disabled and green. *)
Definition isCopied (st : State) (id : string) : bool :=
  match copiedId st with
  | Some c => String.eqb c id
  | None => false
  end.

(** [totalPages > 1]: the pagination controls are rendered. *)
Definition showsPagination (totalPages : Z) : bool := 1 <? totalPages.

(** The number on the [i]-th page button. *)
Definition pageNum (totalPages currentPage i : Z) : Z :=
  if totalPages <=? 5 then i + 1
  else if currentPage <=? 3 then i + 1
  else if totalPages - 2 <=? currentPage then totalPages - 4 + i
  else currentPage - 2 + i.

(** [Array.from({ length: Math.min(5, totalPages) }, (_, i) => pageNum)] *)
Definition pageButtons (totalPages currentPage : Z) : list Z :=
  List.map (fun i => pageNum totalPages currentPage (Z.of_nat i))
           (seq 0 (Z.to_nat (Z.min 5 totalPages))).

(** The Previous and Next buttons and their [disabled] attributes. *)
Definition previousDisabled (currentPage : Z) : bool := currentPage =? 1.

Definition nextDisabled (totalPages currentPage : Z) : bool :=
  currentPage =? totalPages.

Definition goPrevious (totalPages : Z) (st : State) : State * list Effect :=
  goToPage totalPages (currentPage st - 1) st.

Definition goNext (totalPages : Z) (st : State) : State * list Effect :=
  goToPage totalPages (currentPage st + 1) st.

(** [filteredResults.length === 0 && results.length > 0]: the message
    "No results match your filter criteria". *)
Definition showsNoMatch (results filtered : list SearchResult) : bool :=
  (Z.of_nat (List.length filtered) =? 0) && (0 <? Z.of_nat (List.length results)).

End ResultsTable.

(** ** app/page.tsx *)

Module Home.

Inductive SearchMode := AND | OR.

Definition modeText (m : SearchMode) : string :=
  match m with AND => "AND" | OR => "OR" end.

Record SearchFields := mkSearchFields {
  master_id : string;
  name : string;
  fname : string;
  alt : string;
  email : string;
  address : string;
  mobile : string
}.

Record SearchStats := mkSearchStats {
  totalMatches : Z;
  resultsReturned : Z;
  totalTime : Z;
  queryParseTime : Z;
  searchExecutionTime : Z;
  documentRetrievalTime : Z
}.

(** The seven [useState] cells of [Home]. *)
Record State := mkState {
  searchFields : SearchFields;
  searchMode : SearchMode;
  results : list Api.SearchResult;
  loading : bool;
  error : option string;
  searchStats : SearchStats;
  filterText : string
}.

Definition emptyFields : SearchFields :=
  mkSearchFields "" "" "" "" "" "" "".

Definition zeroStats : SearchStats := mkSearchStats 0 0 0 0 0 0.

(** The initial values given to [useState]. *)
Definition initial : State :=
  {| searchFields := emptyFields;
     searchMode := AND;
     results := [];
     loading := false;
     error := None;
     searchStats := zeroStats;
     filterText := "" |}.

(** The state setters. *)
Definition setSearchFields (v : SearchFields) (s : State) : State :=
  mkState v (searchMode s) (results s) (loading s) (error s)
          (searchStats s) (filterText s).
Definition setSearchMode (v : SearchMode) (s : State) : State :=
  mkState (searchFields s) v (results s) (loading s) (error s)
          (searchStats s) (filterText s).
Definition setResults (v : list Api.SearchResult) (s : State) : State :=
  mkState (searchFields s) (searchMode s) v (loading s) (error s)
          (searchStats s) (filterText s).
Definition setLoading (v : bool) (s : State) : State :=
  mkState (searchFields s) (searchMode s) (results s) v (error s)
          (searchStats s) (filterText s).
Definition setError (v : option string) (s : State) : State :=
  mkState (searchFields s) (searchMode s) (results s) (loading s) v
          (searchStats s) (filterText s).
Definition setSearchStats (v : SearchStats) (s : State) : State :=
  mkState (searchFields s) (searchMode s) (results s) (loading s) (error s)
          v (filterText s).
Definition setFilterText (v : string) (s : State) : State :=
  mkState (searchFields s) (searchMode s) (results s) (loading s) (error s)
          (searchStats s) v.

(** [Object.entries(searchFields)], in the order of the object's keys. *)
Definition entries (f : SearchFields) : list (string * string) :=
  [ ("master_id", master_id f); ("name", name f); ("fname", fname f);
    ("alt", alt f); ("email", email f); ("address", address f);
    ("mobile", mobile f) ].

(** The loop that copies the non-blank fields, trimmed, into the
    payload. *)
Fixpoint addFields (es : list (string * string)) (payload : Api.SearchRequest)
  : Api.SearchRequest :=
  match es with
  | [] => payload
  | (key, value) :: rest =>
      if JS.truthy (JS.trim value)
      then addFields rest (payload ++ [(key, JS.trim value)])%list
      else addFields rest payload
  end.

Definition buildPayload (s : State) : Api.SearchRequest :=
  addFields (entries (searchFields s)) [("filter", modeText (searchMode s))].

(** What the awaited [searchAPI] call can do: resolve with the response
    body, or throw (network failure, or a status outside 2xx, which the
    HTTP client turns into an exception).  A thrown value is an [Error]
    with its message, or something else. *)
Inductive Thrown := ErrorObject (message : string) | OtherValue.
Inductive Outcome :=
| Resolved (response : Api.SearchResponse)
| Rejected (err : Thrown).

(** [err instanceof Error ? err.message : "Search failed. ..."] *)
Definition errorMessage (err : Thrown) : string :=
  match err with
  | ErrorObject message => message
  | OtherValue => "Search failed. Please try again."
  end.

(** [handleSearch] up to its [await]: the guard on [loading], the two
    setters, the payload and the call of [searchAPI]. *)
Definition handleSearch_begin (s : State) : State * list Effect :=
  if loading s then (s, [])
  else (setError None (setLoading true s), [Request (buildPayload s)]).

(** [handleSearch] after its [await]: the rest of the [try] block or
    the [catch] block, then [finally]. *)
Definition handleSearch_settle (o : Outcome) (s : State) : State * list Effect :=
  match o with
  | Resolved response =>
      let s1 := setResults (Api.results response) s in
      let s2 :=
        setSearchStats
          {| totalMatches := Api.total_matches response;
             resultsReturned := Api.results_returned response;
             totalTime := Api.total_time_ms response;
             queryParseTime := Api.query_parse_time_ms response;
             searchExecutionTime := Api.search_execution_time_ms response;
             documentRetrievalTime := Api.document_retrieval_time_ms response |}
          s1 in
      (setLoading false s2, [])
  | Rejected err =>
      let s1 := setError (Some (errorMessage err)) s in
      (setLoading false s1, [ConsoleError "Search error:"])
  end.

(** One whole search attempt whose request ends with outcome [o],
    nothing else happening in between. *)
Definition handleSearch (o : Outcome) (s : State) : State * list Effect :=
  if loading s then (s, [])
  else
    let '(s1, fx1) := handleSearch_begin s in
    let '(s2, fx2) := handleSearch_settle o s1 in
    (s2, (fx1 ++ fx2)%list).

Definition handleReset (s : State) : State :=
  let s1 := setSearchFields emptyFields s in
  let s2 := setResults [] s1 in
  let s3 := setFilterText "" s2 in
  let s4 := setError None s3 in
  setSearchStats zeroStats s4.

(** [{error && (<div>{error}</div>)}]: the text of the error banner,
    if the banner is rendered. *)
Definition errorBanner (s : State) : option string :=
  match error s with
  | Some msg => if JS.truthy msg then Some msg else None
  | None => None
  end.

(** [!loading && results.length > 0]: the condition under which
    [RefineResults] and [ResultsTable] are rendered. *)
Definition showsTable (s : State) : bool :=
  negb (loading s) && (0 <? Z.of_nat (List.length (results s))).

(** [{loading && ...}]: the spinner. *)
Definition showsSpinner (s : State) : bool := loading s.

(** [!error] for [error : string | null]. *)
Definition noError (s : State) : bool :=
  match error s with
  | Some msg => negb (JS.truthy msg)
  | None => true
  end.

(** [results.length === 0 && !loading && !error]: the invitation to
    enter search criteria. *)
Definition showsPlaceholder (s : State) : bool :=
  (Z.of_nat (List.length (results s)) =? 0) && negb (loading s) && noError s.

(** [{error && ...}]: the error banner is rendered. *)
Definition showsBanner (s : State) : bool :=
  match errorBanner s with Some _ => true | None => false end.

End Home.

(** ** components/SearchForm.tsx *)

Module SearchForm.

(** [keyof SearchFields] *)
Inductive Key :=
| K_master_id | K_name | K_fname | K_alt | K_email | K_address | K_mobile.

Definition keyName (k : Key) : string :=
  match k with
  | K_master_id => "master_id"
  | K_name => "name"
  | K_fname => "fname"
  | K_alt => "alt"
  | K_email => "email"
  | K_address => "address"
  | K_mobile => "mobile"
  end.

(** [searchFields[key]] *)
Definition get (k : Key) (f : Home.SearchFields) : string :=
  match k with
  | K_master_id => Home.master_id f
  | K_name => Home.name f
  | K_fname => Home.fname f
  | K_alt => Home.alt f
  | K_email => Home.email f
  | K_address => Home.address f
  | K_mobile => Home.mobile f
  end.

(** [updateField]: the object handed to [onFieldChange],
    [{ ...searchFields, [key]: value }]. *)
Definition updateField (key : Key) (value : string) (f : Home.SearchFields)
  : Home.SearchFields :=
  match key with
  | K_master_id =>
      Home.mkSearchFields value (Home.name f) (Home.fname f) (Home.alt f)
                          (Home.email f) (Home.address f) (Home.mobile f)
  | K_name =>
      Home.mkSearchFields (Home.master_id f) value (Home.fname f) (Home.alt f)
                          (Home.email f) (Home.address f) (Home.mobile f)
  | K_fname =>
      Home.mkSearchFields (Home.master_id f) (Home.name f) value (Home.alt f)
                          (Home.email f) (Home.address f) (Home.mobile f)
  | K_alt =>
      Home.mkSearchFields (Home.master_id f) (Home.name f) (Home.fname f) value
                          (Home.email f) (Home.address f) (Home.mobile f)
  | K_email =>
      Home.mkSearchFields (Home.master_id f) (Home.name f) (Home.fname f)
                          (Home.alt f) value (Home.address f) (Home.mobile f)
  | K_address =>
      Home.mkSearchFields (Home.master_id f) (Home.name f) (Home.fname f)
                          (Home.alt f) (Home.email f) value (Home.mobile f)
  | K_mobile =>
      Home.mkSearchFields (Home.master_id f) (Home.name f) (Home.fname f)
                          (Home.alt f) (Home.email f) (Home.address f) value
  end.

(** The seven keys, in the order of the object's properties. *)
Definition allKeys : list Key :=
  [K_master_id; K_name; K_fname; K_alt; K_email; K_address; K_mobile].

(** The Search button carries [disabled={loading}]. *)
Definition searchDisabled (loading : bool) : bool := loading.

End SearchForm.

(** ** The page as a whole: [Home] and the [ResultsTable] it renders *)

Module App.

(** The table's state exists only while the table is mounted. *)
Record State := mkState {
  home : Home.State;
  table : option ResultsTable.State
}.

(** A render of [Home]: the table is unmounted when the condition of
    [Home.showsTable] fails (its state is dropped), mounted afresh when
    the condition holds and it was absent, and re-rendered with the
    current [filterText] prop otherwise. *)
Definition render (s : State) : State :=
  {| home := home s;
     table :=
       if Home.showsTable (home s) then
         Some match table s with
              | None => ResultsTable.mount (Home.filterText (home s))
              | Some t => ResultsTable.rerender (Home.filterText (home s)) t
              end
       else None |}.

Inductive Event :=
| FieldChange (fields : Home.SearchFields)   (* onFieldChange *)
| ModeChange (mode : Home.SearchMode)        (* onModeChange *)
| Search                                     (* onSearch, up to the await *)
| SearchSettled (o : Home.Outcome)           (* the awaited call returns *)
| Reset                                      (* onReset *)
| FilterChange (text : string)               (* onFilterChange *)
| GoToPage (page : Z)                        (* a pagination button *)
| CopyAll (clipboardOk : bool)               (* the Copy All button *)
| RowCopied (id : string)                    (* copyToClipboard succeeded *)
| CopiedExpired.                             (* its 2 s timer fires *)

Definition withHome (h : Home.State) (s : State) : State :=
  {| home := h; table := table s |}.

Definition withCopiedId (v : option string) (s : State) : State :=
  {| home := home s;
     table :=
       match table s with
       | Some t =>
           Some {| ResultsTable.copiedId := v;
                   ResultsTable.currentPage := ResultsTable.currentPage t;
                   ResultsTable.memoFilterText := ResultsTable.memoFilterText t |}
       | None => None
       end |}.

(** The handler run by each event.  The awaited call of [handleSearch]
    returns only for a request that was sent, that is while [loading]
    is still set; the table's handlers run only while it is mounted. *)
Definition handle (e : Event) (s : State) : State * list Effect :=
  let h := home s in
  match e with
  | FieldChange fields => (withHome (Home.setSearchFields fields h) s, [])
  | ModeChange mode => (withHome (Home.setSearchMode mode h) s, [])
  | Search =>
      let '(h', fx) := Home.handleSearch_begin h in (withHome h' s, fx)
  | SearchSettled o =>
      if Home.loading h then
        let '(h', fx) := Home.handleSearch_settle o h in (withHome h' s, fx)
      else (s, [])
  | Reset => (withHome (Home.handleReset h) s, [])
  | FilterChange text => (withHome (Home.setFilterText text h) s, [])
  | GoToPage page =>
      match table s with
      | Some t =>
          let filtered :=
            ResultsTable.filteredResults (Home.results h) (Home.filterText h) in
          let '(t', fx) :=
            ResultsTable.goToPage (ResultsTable.totalPages filtered) page t in
          ({| home := h; table := Some t' |}, fx)
      | None => (s, [])
      end
  | CopyAll clipboardOk =>
      match table s with
      | Some _ => (s, ResultsTable.copyAllResults (Home.results h) clipboardOk)
      | None => (s, [])
      end
  | RowCopied id => (withCopiedId (Some id) s, [])
  | CopiedExpired => (withCopiedId None s, [])
  end.

(** An event, then the render it triggers. *)
Definition step (e : Event) (s : State) : State * list Effect :=
  let '(s', fx) := handle e s in (render s', fx).

Definition initial : State :=
  render {| home := Home.initial; table := None |}.

(** The states the page can be in. *)
Inductive reachable : State -> Prop :=
| reachable_initial : reachable initial
| reachable_step e s : reachable s -> reachable (fst (step e s)).

(** A state as a render leaves it. *)
Definition rendered (s : State) : Prop :=
  match table s with
  | Some t =>
      Home.showsTable (home s) = true /\
      ResultsTable.memoFilterText t = Home.filterText (home s)
  | None => Home.showsTable (home s) = false
  end.

(** The page number of a mounted table is a page number: 1 or more. *)
Definition pagePositive (s : State) : Prop :=
  forall t, table s = Some t -> 1 <= ResultsTable.currentPage t.

(** A whole session: the events in order, with everything they did to
    the outside world. *)
Fixpoint runAll (es : list Event) (s : State) : State * list Effect :=
  match es with
  | [] => (s, [])
  | e :: rest =>
      let '(s1, fx1) := step e s in
      let '(s2, fx2) := runAll rest s1 in
      (s2, (fx1 ++ fx2)%list)
  end.

Definition isRequest (fx : Effect) : bool :=
  match fx with Request _ => true | _ => false end.

Definition requestsSent (fx : list Effect) : nat :=
  List.length (List.filter isRequest fx).

(** The requests sent and not yet answered, [n] of them before the
    events [es]; [None] when an answer arrives that no request is
    waiting for, which the network never does. *)
Fixpoint outstanding (es : list Event) (s : State) (n : nat)
  : option (State * nat) :=
  match es with
  | [] => Some (s, n)
  | e :: rest =>
      let '(s', fx) := step e s in
      match e with
      | SearchSettled _ =>
          match n with
          | O => None
          | S m => outstanding rest s' (m + requestsSent fx)
          end
      | _ => outstanding rest s' (n + requestsSent fx)
      end
  end.

(** The filtered sequence the mounted table works on. *)
Definition filtered (s : State) : list Api.SearchResult :=
  ResultsTable.filteredResults (Home.results (home s)) (Home.filterText (home s)).

(** The page number of a mounted table points at an existing page of
    the filtered sequence (page 1 when there is no page at all). *)
Definition pageInRange (s : State) : Prop :=
  forall t, table s = Some t ->
            1 <= ResultsTable.currentPage t
              <= Z.max 1 (ResultsTable.totalPages (filtered s)).

End App.

(** ** Specification vocabulary *)

Module Spec.
Import Api.

(** [sub] occurs somewhere inside [s]. *)
Definition isSubstring (sub s : string) : Prop :=
  exists pre post, s = (pre ++ sub ++ post)%string.

(** The seven fields of a record. *)
Definition fieldsOf (r : SearchResult) : list string :=
  [master_id r; name r; fname r; mobile r; alt r; email r; address r].

(** The filter criterion: the lowercased filter occurs in at least one
    lowercased field. *)
Definition passes (f : string) (r : SearchResult) : Prop :=
  exists fld, In fld (fieldsOf r) /\
              isSubstring (JS.toLowerCase f) (JS.toLowerCase fld).

(** [selects P l out]: [out] is [l] with exactly the elements that
    satisfy [P] kept, in the order of [l]. *)
Inductive selects {A : Type} (P : A -> Prop) : list A -> list A -> Prop :=
| selects_nil : selects P [] []
| selects_keep x l out : P x -> selects P l out -> selects P (x :: l) (x :: out)
| selects_drop x l out : ~ P x -> selects P l out -> selects P (x :: l) out.

(** The page numbers [1, 2, ..., n]. *)
Definition pageNumbers (n : Z) : list Z :=
  List.map Z.of_nat (seq 1 (Z.to_nat n)).

(** All pages of a filtered sequence, one after the other. *)
Definition allPages (filtered : list SearchResult) : list SearchResult :=
  List.concat
    (List.map (ResultsTable.paginatedResults filtered)
              (pageNumbers (ResultsTable.totalPages filtered))).

(** The text of copy-all: one line per record, the seven fields of a
    record separated by the horizontal tab (character 9), the lines
    separated by the line feed (character 10). *)
Definition copyLine (r : SearchResult) : string :=
  String.concat (String "009"%char EmptyString) (fieldsOf r).

Definition copyText (R : list SearchResult) : string :=
  String.concat (String "010"%char EmptyString) (List.map copyLine R).

(** Total pages with a floor of 1: the ceiling, but never below 1. *)
Definition totalPagesMin1 (n : Z) : Z := Z.max 1 (JS.ceilDiv n 100).

(** A character that is not the dash. *)
Definition notDash (c : ascii) : bool := negb (Ascii.eqb c "-").

(** No character of [s] is a dash. *)
Fixpoint dashFree (s : string) : bool :=
  match s with
  | EmptyString => true
  | String c s' => notDash c && dashFree s'
  end.

(** What follows the last dash of [s], if [s] has a dash. *)
Fixpoint afterLastDash (s : string) : option string :=
  match s with
  | EmptyString => None
  | String c s' =>
      match afterLastDash s' with
      | Some r => Some r
      | None => if notDash c then None else Some s'
      end
  end.

(** [s] neither starts nor ends with white space. *)
Definition trimmed (s : string) : Prop := JS.trim s = s.

End Spec.

(** ** Sample data

  A few concrete records and page states, used to run the statements
  below on actual inputs. *)

Module Sample.

Definition ann : Api.SearchResult :=
  Api.mkSearchResult "7" "5550101" "" "Ann" "Joe" "1 High St" "a@b.com".

Definition bob : Api.SearchResult :=
  Api.mkSearchResult "8" "5550102" "5550103" "Bob" "Tom" "2 Low Rd" "b@c.org".

Definition response (rows : list Api.SearchResult) : Api.SearchResponse :=
  Api.mkSearchResponse rows (Z.of_nat (List.length rows))
                       (Z.of_nat (List.length rows)) 1 2 3 6.

(** A search has been sent and has not returned yet. *)
Definition waiting : App.State :=
  fst (App.step App.Search App.initial).

(** 151 records came back and the user went to page 2. *)
Definition onPageTwo : App.State :=
  fst (App.step (App.GoToPage 2)
         (fst (App.step
                 (App.SearchSettled
                    (Home.Resolved (response (repeat ann 150 ++ [bob])%list)))
                 waiting))).

(** Two records came back and the user typed a filter. *)
Definition filtered : App.State :=
  fst (App.step (App.FilterChange "bob")
         (fst (App.step
                 (App.SearchSettled (Home.Resolved (response [ann; bob])))
                 waiting))).

End Sample.

(** * Properties *)

(** ** Strings *)

Section StringFacts.

Lemma startsWith_spec (s p : string) :
  JS.startsWith s p = true <-> exists post, s = (p ++ post)%string.
Proof.
  revert s; induction p as [|b p IH]; intros s; simpl.
  - split; [intros _; exists s; reflexivity | reflexivity].
  - destruct s as [|a s].
    + split; [discriminate | intros [post H]; discriminate].
    + rewrite andb_true_iff, Ascii.eqb_eq, IH. split.
      * intros [-> [post ->]]. exists post; reflexivity.
      * intros [post H]. injection H as -> ->. split; [reflexivity | eauto].
Qed.

Lemma includes_spec (s sub : string) :
  JS.includes s sub = true <-> Spec.isSubstring sub s.
Proof.
  unfold Spec.isSubstring.
  induction s as [|a s IH]; simpl; rewrite orb_true_iff, startsWith_spec.
  - split.
    + intros [[post H] | H]; [|discriminate].
      exists EmptyString, post; exact H.
    + intros [pre [post H]]. left.
      destruct pre; [exists post; exact H | discriminate].
  - rewrite IH. split.
    + intros [[post H] | [pre [post H]]].
      * exists EmptyString, post; exact H.
      * exists (String a pre), post; simpl; rewrite H; reflexivity.
    + intros [pre [post H]]. destruct pre as [|c pre]; simpl in H.
      * left; exists post; exact H.
      * right. injection H as _ H. exists pre, post; exact H.
Qed.

Lemma includes_empty (s : string) : JS.includes s "" = true.
Proof. destruct s; reflexivity. Qed.

Lemma truthy_false (s : string) : JS.truthy s = false -> s = "".
Proof. destruct s; [reflexivity | discriminate]. Qed.

End StringFacts.

(** ** Filtering *)

Section Filtering.
Import Api.

Lemma matchesFilter_passes (f : string) (r : SearchResult) :
  ResultsTable.matchesFilter (JS.toLowerCase f) r = true <-> Spec.passes f r.
Proof.
  unfold ResultsTable.matchesFilter, Spec.passes, Spec.fieldsOf.
  rewrite !orb_true_iff, !includes_spec. simpl. split.
  - intros H.
    repeat (destruct H as [H | H]); eauto 12.
  - intros [fld [Hin H]].
    repeat (destruct Hin as [<- | Hin]); tauto.
Qed.

Lemma filter_selects {A : Type} (p : A -> bool) (P : A -> Prop) (l : list A) :
  (forall x, p x = true <-> P x) -> Spec.selects P l (List.filter p l).
Proof.
  intros Hp. induction l as [|x l IH]; simpl.
  - constructor.
  - destruct (p x) eqn:E.
    + apply Spec.selects_keep; [apply Hp; exact E | exact IH].
    + apply Spec.selects_drop; [|exact IH].
      intros HP. apply Hp in HP. congruence.
Qed.

Lemma selects_all {A : Type} (P : A -> Prop) (l : list A) :
  (forall x, P x) -> Spec.selects P l l.
Proof.
  intros HP. induction l; constructor; auto.
Qed.

(** [selects] determines its output: it is a function of the list. *)
Lemma selects_functional {A : Type} (P : A -> Prop) (l o1 o2 : list A) :
  Spec.selects P l o1 -> Spec.selects P l o2 -> o1 = o2.
Proof.
  intros H1; revert o2.
  induction H1; intros o2 H2; inversion H2; subst;
    try reflexivity; try contradiction.
  - f_equal; auto.
  - auto.
Qed.

Lemma passes_empty (r : SearchResult) : Spec.passes "" r.
Proof.
  exists (master_id r). split; [left; reflexivity|].
  exists EmptyString, (JS.toLowerCase (master_id r)). reflexivity.
Qed.

Lemma filter_filter {A : Type} (p : A -> bool) (l : list A) :
  List.filter p (List.filter p l) = List.filter p l.
Proof.
  induction l as [|x l IH]; simpl; [reflexivity|].
  destruct (p x) eqn:E; simpl; [rewrite E, IH|]; auto.
Qed.

End Filtering.

(** ** Arithmetic and slices *)

Section Slices.

Lemma ceilDiv_spec (n d : Z) :
  0 < d -> (JS.ceilDiv n d - 1) * d < n <= JS.ceilDiv n d * d.
Proof.
  intros Hd. unfold JS.ceilDiv.
  pose proof (Z.div_mod (- n) d ltac:(lia)) as E.
  pose proof (Z.mod_pos_bound (- n) d Hd) as B.
  nia.
Qed.

(** The ceiling is the only integer with the property above. *)
Lemma ceilDiv_unique (n d k : Z) :
  0 < d -> (k - 1) * d < n <= k * d -> JS.ceilDiv n d = k.
Proof.
  intros Hd Hk. pose proof (ceilDiv_spec n d Hd) as Hc.
  assert (~ JS.ceilDiv n d < k) by nia.
  assert (~ k < JS.ceilDiv n d) by nia.
  lia.
Qed.

(** With a start index inside [0, ...) and a positive width, [slice]
    takes [n] elements after dropping [a]. *)
Lemma slice_window {A : Type} (l : list A) (a n : Z) :
  0 <= a -> 0 <= n ->
  JS.slice l a (a + n) = firstn (Z.to_nat n) (skipn (Z.to_nat a) l).
Proof.
  intros Ha Hn. unfold JS.slice.
  destruct (Z.ltb_spec a 0); [lia|].
  destruct (Z.ltb_spec (a + n) 0); [lia|].
  set (len := Z.of_nat (List.length l)).
  destruct (Z.le_gt_cases len a) as [Hge | Hlt].
  - rewrite !skipn_all2 by lia. rewrite !firstn_nil. reflexivity.
  - rewrite (Z.min_l a len) by lia.
    destruct (Z.le_gt_cases (a + n) len) as [Hin | Hout].
    + rewrite Z.min_l by lia. do 2 f_equal. lia.
    + rewrite Z.min_r by lia.
      rewrite !firstn_all2; [reflexivity | |];
        rewrite length_skipn; lia.
Qed.

(** Cutting a list into [k] windows of width [w] loses nothing when
    [k * w] covers the list. *)
Lemma windows_concat {A : Type} (w : nat) :
  forall (k : nat) (l : list A),
    (List.length l <= k * w)%nat ->
    List.concat
      (List.map (fun i => firstn w (skipn (i * w) l)) (seq 0 k)) = l.
Proof.
  induction k as [|k IH]; intros l Hlen.
  - destruct l; [reflexivity | simpl in Hlen; lia].
  - rewrite <- cons_seq, <- seq_shift, map_cons, map_map. simpl List.concat.
    rewrite (map_ext _ (fun i => firstn w (skipn (i * w) (skipn w l)))).
    + rewrite IH.
      * apply firstn_skipn.
      * rewrite length_skipn. simpl in Hlen. lia.
    + intros i. rewrite skipn_skipn. do 2 f_equal. lia.
Qed.

End Slices.

(** ** The result view: filter, pages, navigation, copy *)

Section ResultView.
Import Api.

(** C3.  The filter operation returns exactly the records of [R] that
    pass the criterion (the lowercased filter occurs in at least one of
    the seven lowercased fields), in the order of [R]; with the empty
    filter it returns [R] itself; and a record whose email is
    ["a@b.com"] is kept by the filter ["A@B"]. *)
Theorem C3_filter_keeps_matching_records_in_order :
  forall (R : list SearchResult) (f : string),
    Spec.selects (Spec.passes f) R (ResultsTable.filteredResults R f)
    /\ ResultsTable.filteredResults R "" = R
    /\ (forall r, In r R -> email r = "a@b.com" ->
                  In r (ResultsTable.filteredResults R "A@B")).
Proof.
  intros R f. split; [|split].
  - unfold ResultsTable.filteredResults.
    destruct (JS.truthy f) eqn:Ef; simpl.
    + apply filter_selects. intros r. apply matchesFilter_passes.
    + apply truthy_false in Ef. subst f.
      apply selects_all, passes_empty.
  - reflexivity.
  - intros r Hin He. unfold ResultsTable.filteredResults. simpl.
    apply filter_In. split; [exact Hin|].
    unfold ResultsTable.matchesFilter. rewrite He.
    rewrite !orb_true_iff. left; right. reflexivity.
Qed.

(** On a two-record result set, the record with email ["a@b.com"] is
    kept by the filter ["A@B"]. *)
Lemma C3_witness :
  In Sample.ann
     (ResultsTable.filteredResults [Sample.bob; Sample.ann] "A@B").
Proof.
  apply (proj2 (proj2 (C3_filter_keeps_matching_records_in_order
                         [Sample.bob; Sample.ann] "A@B")) Sample.ann).
  - simpl. right. left. reflexivity.
  - reflexivity.
Defined.

(** C8.  Filtering twice with the same filter is filtering once. *)
Theorem C8_filter_idempotent :
  forall (R : list SearchResult) (f : string),
    ResultsTable.filteredResults (ResultsTable.filteredResults R f) f
    = ResultsTable.filteredResults R f.
Proof.
  intros R f. unfold ResultsTable.filteredResults.
  destruct (JS.truthy f); simpl; [apply filter_filter | reflexivity].
Qed.

Lemma totalPages_bounds (filtered : list SearchResult) :
  (ResultsTable.totalPages filtered - 1) * 100
  < Z.of_nat (List.length filtered)
  <= ResultsTable.totalPages filtered * 100.
Proof.
  unfold ResultsTable.totalPages, ResultsTable.RESULTS_PER_PAGE.
  apply ceilDiv_spec. lia.
Qed.

(** C1 as stated fails: a floor of 1 on total pages does not hold on
    the empty sequence, where the value computed is 0. *)
Lemma C1_counterexample_empty_sequence :
  ResultsTable.totalPages []
  <> Spec.totalPagesMin1 (Z.of_nat (List.length (@nil SearchResult))).
Proof. vm_compute. discriminate. Qed.

(** C1, amended.  Total pages is the ceiling of [n / 100] with no
    minimum applied: it is the integer [k] with
    [(k - 1) * 100 < n <= k * 100], it is 0 for the empty sequence, and
    for a non-empty one it is at least 1 and is the value of the
    minimum-1 formula. *)
Theorem C1_totalPages_is_ceiling_without_minimum :
  forall (filtered : list SearchResult),
    let n := Z.of_nat (List.length filtered) in
    let k := ResultsTable.totalPages filtered in
    (k - 1) * 100 < n <= k * 100
    /\ (filtered = [] -> k = 0)
    /\ (filtered <> [] -> 1 <= k /\ k = Spec.totalPagesMin1 n).
Proof.
  intros filtered n k.
  pose proof (totalPages_bounds filtered) as Hc. fold n k in Hc.
  split; [exact Hc|]. split.
  - intros ->. reflexivity.
  - intros Hne.
    assert (0 < n) by (subst n; destruct filtered; [congruence | simpl; lia]).
    assert (1 <= k) by nia.
    split; [assumption|].
    unfold Spec.totalPagesMin1. fold k.
    change (JS.ceilDiv n 100) with k. lia.
Qed.

(** No record gives 0 pages; 101 records give 2 pages. *)
Lemma C1_witness :
  ResultsTable.totalPages (@nil SearchResult) = 0
  /\ 1 <= ResultsTable.totalPages (repeat Sample.ann 101)
  /\ ResultsTable.totalPages (repeat Sample.ann 101) = 2.
Proof.
  split; [|split].
  - apply (proj1 (proj2 (C1_totalPages_is_ceiling_without_minimum []))).
    reflexivity.
  - apply (proj2 (proj2 (C1_totalPages_is_ceiling_without_minimum
                           (repeat Sample.ann 101)))).
    discriminate.
  - reflexivity.
Defined.

Lemma paginatedResults_window (filtered : list SearchResult) (p : Z) :
  1 <= p ->
  ResultsTable.paginatedResults filtered p
  = firstn 100 (skipn (Z.to_nat ((p - 1) * 100)) filtered).
Proof.
  intros Hp.
  unfold ResultsTable.paginatedResults, ResultsTable.endIndex,
    ResultsTable.startIndex, ResultsTable.RESULTS_PER_PAGE.
  rewrite slice_window by lia. reflexivity.
Qed.

Lemma allPages_id (filtered : list SearchResult) :
  Spec.allPages filtered = filtered.
Proof.
  unfold Spec.allPages, Spec.pageNumbers.
  set (k := Z.to_nat (ResultsTable.totalPages filtered)).
  rewrite <- seq_shift, !map_map.
  rewrite (map_ext _ (fun i => firstn 100 (skipn (i * 100) filtered))).
  - apply windows_concat.
    pose proof (totalPages_bounds filtered) as Hc.
    subst k. lia.
  - intros i. rewrite paginatedResults_window by lia.
    do 2 f_equal. lia.
Qed.

(** C4.  For a page number [p] (pages are numbered from 1, and the
    page held by the table is never below 1, see
    [reachable_page_positive]), the page holds the records at positions
    [(p-1)*100 + i] for [i < 100], as far as the sequence goes; and the
    pages [1 .. totalPages], one after the other, are the filtered
    sequence itself: nothing twice, nothing missing. *)
Theorem C4_pages_are_clamped_slices_and_partition :
  forall (filtered : list SearchResult),
    (forall p : Z, 1 <= p ->
       forall i : nat,
         nth_error (ResultsTable.paginatedResults filtered p) i
         = if (i <? 100)%nat
           then nth_error filtered (Z.to_nat ((p - 1) * 100) + i)
           else None)
    /\ Spec.allPages filtered = filtered.
Proof.
  intros filtered. split.
  - intros p Hp i. rewrite paginatedResults_window by exact Hp.
    rewrite nth_error_firstn, nth_error_skipn. reflexivity.
  - apply allPages_id.
Qed.

(** With 250 records, page 3 ends with the 250th record at its
    position 49 and has nothing at position 50. *)
Lemma C4_witness :
  let l := (repeat Sample.ann 249 ++ [Sample.bob])%list in
  nth_error (ResultsTable.paginatedResults l 3) 49 = Some Sample.bob
  /\ nth_error (ResultsTable.paginatedResults l 3) 50 = None.
Proof.
  intros l. split.
  - rewrite (proj1 (C4_pages_are_clamped_slices_and_partition l) 3 ltac:(lia) 49%nat).
    reflexivity.
  - rewrite (proj1 (C4_pages_are_clamped_slices_and_partition l) 3 ltac:(lia) 50%nat).
    reflexivity.
Defined.

End ResultView.

(** ** Page navigation *)

Section Navigation.

(** C5.  [goToPage] sets the page to [page] (and scrolls to the top)
    when [1 <= page <= totalPages]; for any other [page] it changes
    nothing and does nothing. *)
Theorem C5_goToPage_updates_only_inside_range :
  forall (totalPages page : Z) (st : ResultsTable.State),
    (1 <= page <= totalPages ->
       let '(st', fx) := ResultsTable.goToPage totalPages page st in
       ResultsTable.currentPage st' = page
       /\ ResultsTable.copiedId st' = ResultsTable.copiedId st
       /\ fx = [ScrollToTop])
    /\ (page < 1 \/ totalPages < page ->
       ResultsTable.goToPage totalPages page st = (st, [])).
Proof.
  intros totalPages page st. unfold ResultsTable.goToPage. split.
  - intros [H1 H2].
    destruct (Z.leb_spec 1 page); [|lia].
    destruct (Z.leb_spec page totalPages); [|lia].
    simpl. auto.
  - intros H.
    destruct (Z.leb_spec 1 page); simpl; [|reflexivity].
    destruct (Z.leb_spec page totalPages); [lia | reflexivity].
Qed.

(** With 3 pages: page 2 is accepted, pages 0 and 4 are refused. *)
Lemma C5_witness :
  let st := ResultsTable.mkState None 1 "" in
  ResultsTable.currentPage (fst (ResultsTable.goToPage 3 2 st)) = 2
  /\ ResultsTable.goToPage 3 0 st = (st, [])
  /\ ResultsTable.goToPage 3 4 st = (st, []).
Proof.
  intros st. split; [|split].
  - pose proof (proj1 (C5_goToPage_updates_only_inside_range 3 2 st)) as H.
    destruct (ResultsTable.goToPage 3 2 st) as [st' fx].
    apply H. lia.
  - apply (proj2 (C5_goToPage_updates_only_inside_range 3 0 st)). lia.
  - apply (proj2 (C5_goToPage_updates_only_inside_range 3 4 st)). lia.
Defined.

End Navigation.

(** ** The handlers of [Home] *)

Section HomeHandlers.
Import Home.

(** The continuation of a failed request touches [error] and
    [loading] only, whatever happened since the request was sent. *)
Lemma handleSearch_settle_rejected (s : State) (err : Thrown) :
  handleSearch_settle (Rejected err) s
  = (mkState (searchFields s) (searchMode s) (results s) false
             (Some (errorMessage err)) (searchStats s) (filterText s),
     [ConsoleError "Search error:"]).
Proof. reflexivity. Qed.

Lemma truthy_nonempty (s : string) : s <> "" -> JS.truthy s = true.
Proof. destruct s; [congruence | reflexivity]. Qed.

(** C6.  A search attempt that fails, started from an idle state, ends
    with the error message set and shown in the banner: the message of
    the error thrown, when an [Error] with a message that is not the
    empty text was thrown, and the text "Search failed. Please try
    again." when something else was thrown; the loading flag is
    cleared, and the result set, the statistics, the search fields, the
    filter text and the search mode are as they were; the failure is
    logged, not thrown. *)
Theorem C6_failed_search_sets_error_and_keeps_state :
  forall (s : State) (err : Thrown),
    loading s = false ->
    let '(s', fx) := handleSearch (Rejected err) s in
    match err with
    | ErrorObject m =>
        error s' = Some m /\ (m <> "" -> errorBanner s' = Some m)
    | OtherValue =>
        error s' = Some "Search failed. Please try again."
        /\ errorBanner s' = Some "Search failed. Please try again."
    end
    /\ loading s' = false
    /\ results s' = results s
    /\ searchStats s' = searchStats s
    /\ searchFields s' = searchFields s
    /\ filterText s' = filterText s
    /\ searchMode s' = searchMode s
    /\ fx = [Request (buildPayload s); ConsoleError "Search error:"].
Proof.
  intros s err Hidle.
  unfold handleSearch, handleSearch_begin. rewrite Hidle. simpl.
  split; [|repeat split].
  destruct err as [m|]; simpl.
  - split; [reflexivity|].
    intros Hmsg. unfold errorBanner. simpl.
    rewrite truthy_nonempty by exact Hmsg. reflexivity.
  - split; reflexivity.
Qed.

(** A network failure, and a thrown value that is not an [Error], on
    a page that already shows one record. *)
Lemma C6_witness :
  let r := Sample.ann in
  let s := mkState (mkSearchFields "" "ann" "" "" "" "" "") OR [r] false None
                   (mkSearchStats 1 1 3 1 1 1) "an" in
  let s' := fst (handleSearch (Rejected (ErrorObject "Network Error")) s) in
  let s'' := fst (handleSearch (Rejected OtherValue) s) in
  error s' = Some "Network Error"
  /\ errorBanner s' = Some "Network Error"
  /\ results s' = [r]
  /\ filterText s' = "an"
  /\ errorBanner s'' = Some "Search failed. Please try again."
  /\ results s'' = [r].
Proof.
  intros r s s' s''.
  pose proof (C6_failed_search_sets_error_and_keeps_state
                s (ErrorObject "Network Error") eq_refl) as H.
  pose proof (C6_failed_search_sets_error_and_keeps_state
                s OtherValue eq_refl) as H'.
  subst s' s''.
  destruct (handleSearch (Rejected (ErrorObject "Network Error")) s) as [s1 fx1].
  destruct (handleSearch (Rejected OtherValue) s) as [s2 fx2].
  destruct H as ((He & Hb) & _ & Hr & _ & _ & Hf & _).
  destruct H' as ((_ & Hb') & _ & Hr' & _).
  simpl. repeat split.
  - exact He.
  - apply Hb. discriminate.
  - exact Hr.
  - exact Hf.
  - exact Hb'.
  - exact Hr'.
Defined.

(** C10.  Reset empties the seven search fields, the result set, the
    filter text, the error and the statistics, as in the initial state,
    and leaves the search mode (and the loading flag) alone. *)
Theorem C10_reset_restores_initial_values_except_mode :
  forall (s : State),
    let s' := handleReset s in
    searchFields s' = searchFields initial
    /\ searchFields s' = mkSearchFields "" "" "" "" "" "" ""
    /\ results s' = []
    /\ filterText s' = ""
    /\ error s' = None
    /\ searchStats s' = searchStats initial
    /\ searchStats s' = mkSearchStats 0 0 0 0 0 0
    /\ searchMode s' = searchMode s
    /\ loading s' = loading s.
Proof. intros s. simpl. repeat split. Qed.

End HomeHandlers.

(** ** The page as a state machine *)

Section Page.
Import App.

Lemma rerender_memo (f : string) (t : ResultsTable.State) :
  ResultsTable.memoFilterText (ResultsTable.rerender f t) = f.
Proof.
  unfold ResultsTable.rerender.
  destruct (String.eqb_spec (ResultsTable.memoFilterText t) f); auto.
Qed.

(** The table itself keeps its page when it is re-rendered with the
    filter it already had, whatever the other props are: in particular
    a new [results] prop alone does not reset the page. *)
Remark rerender_same_filter (t : ResultsTable.State) :
  ResultsTable.rerender (ResultsTable.memoFilterText t) t = t.
Proof.
  unfold ResultsTable.rerender. rewrite String.eqb_refl. reflexivity.
Qed.

Lemma rerender_new_filter (f : string) (t : ResultsTable.State) :
  f <> ResultsTable.memoFilterText t ->
  ResultsTable.currentPage (ResultsTable.rerender f t) = 1.
Proof.
  intros Hne. unfold ResultsTable.rerender.
  destruct (String.eqb_spec (ResultsTable.memoFilterText t) f);
    [congruence | reflexivity].
Qed.

Lemma render_rendered (s : State) : rendered (render s).
Proof.
  unfold rendered, render. simpl.
  destruct (Home.showsTable (home s)); [|reflexivity].
  split; [reflexivity|].
  destruct (table s); [apply rerender_memo | reflexivity].
Qed.

Lemma rendered_render (s : State) : rendered s -> render s = s.
Proof.
  destruct s as [h [t|]]; unfold rendered, render; simpl.
  - intros [-> <-]. rewrite rerender_same_filter. reflexivity.
  - intros ->. reflexivity.
Qed.

Lemma step_render (e : Event) (s : State) :
  fst (step e s) = render (fst (handle e s)).
Proof. unfold step. destruct (handle e s). reflexivity. Qed.

Lemma reachable_rendered (s : State) : reachable s -> rendered s.
Proof.
  intros H. destruct H.
  - apply render_rendered.
  - rewrite step_render. apply render_rendered.
Qed.

(** While a request is in flight the table is not on the page. *)
Lemma loading_unmounts (s : State) :
  rendered s -> Home.loading (home s) = true -> table s = None.
Proof.
  unfold rendered, Home.showsTable. intros Hr Hl.
  destruct (table s); [|reflexivity].
  rewrite Hl in Hr. destruct Hr as [Hr _]. discriminate.
Qed.

(** The page number held by a mounted table is never below 1: it
    starts at 1, a reset puts it at 1, and [goToPage] accepts no page
    below 1. *)
Lemma rerender_page (f : string) (t : ResultsTable.State) :
  1 <= ResultsTable.currentPage t ->
  1 <= ResultsTable.currentPage (ResultsTable.rerender f t).
Proof.
  intros H. unfold ResultsTable.rerender.
  destruct (String.eqb _ _); simpl; lia.
Qed.

Lemma goToPage_page (k p : Z) (t : ResultsTable.State) :
  1 <= ResultsTable.currentPage t ->
  1 <= ResultsTable.currentPage (fst (ResultsTable.goToPage k p t)).
Proof.
  intros H. unfold ResultsTable.goToPage.
  destruct (Z.leb_spec 1 p); simpl; [|exact H].
  destruct (p <=? k); simpl; lia.
Qed.

Lemma render_page (s : State) : pagePositive s -> pagePositive (render s).
Proof.
  unfold pagePositive, render. simpl. intros H t.
  destruct (Home.showsTable (home s)); [|discriminate].
  destruct (table s) as [t0|]; intros [= <-].
  - apply rerender_page, H. reflexivity.
  - simpl. lia.
Qed.

Lemma handle_page (e : Event) (s : State) :
  pagePositive s -> pagePositive (fst (handle e s)).
Proof.
  destruct s as [h tb]. unfold pagePositive. simpl. intros H.
  destruct e; simpl; try exact H.
  - destruct (Home.handleSearch_begin h); exact H.
  - destruct (Home.loading h);
      [destruct (Home.handleSearch_settle o h)|]; exact H.
  - destruct tb as [t0|]; [|exact H].
    pose proof (goToPage_page
                  (ResultsTable.totalPages
                     (ResultsTable.filteredResults
                        (Home.results h) (Home.filterText h)))
                  page t0 (H t0 eq_refl)) as Hg.
    destruct (ResultsTable.goToPage _ page t0) as [t' fx].
    simpl. intros t [= <-]. exact Hg.
  - destruct tb; exact H.
  - destruct tb as [t0|]; intros t [= <-]. simpl. apply H. reflexivity.
  - destruct tb as [t0|]; intros t [= <-]. simpl. apply H. reflexivity.
Qed.

Lemma reachable_page_positive (s : State) :
  reachable s -> pagePositive s.
Proof.
  induction 1 as [|e s Hs IH].
  - intros t. discriminate.
  - rewrite step_render. apply render_page, handle_page, IH.
Qed.

(** C2.  In every state of the page, after the filter text is changed
    to a different text the page shown is 1, and after a search
    returns and its result set replaces the previous one the page
    shown is 1; in both cases the table is on the page (when it was,
    for a filter change; when the new result set is not empty, for a
    search). *)
Theorem C2_page_resets_on_filter_change_and_new_results :
  forall (s : State),
    reachable s ->
    (forall f : string,
       f <> Home.filterText (home s) ->
       let s' := fst (step (FilterChange f) s) in
       (forall t, table s' = Some t -> ResultsTable.currentPage t = 1)
       /\ (table s <> None -> table s' <> None))
    /\ (forall response : Api.SearchResponse,
          Home.loading (home s) = true ->
          let s' := fst (step (SearchSettled (Home.Resolved response)) s) in
          Home.results (home s') = Api.results response
          /\ (forall t, table s' = Some t -> ResultsTable.currentPage t = 1)
          /\ (Api.results response <> [] -> table s' <> None)).
Proof.
  intros s Hreach. apply reachable_rendered in Hreach. split.
  - intros f Hf s'. subst s'. rewrite step_render. simpl.
    unfold render. simpl.
    change (Home.showsTable (Home.setFilterText f (home s)))
      with (Home.showsTable (home s)).
    unfold rendered in Hreach.
    destruct (table s) as [t0|].
    + destruct Hreach as [-> Hm]. split; [|discriminate].
      intros t [= <-]. apply rerender_new_filter. congruence.
    + rewrite Hreach. split; [discriminate | congruence].
  - intros response Hl s'. subst s'. rewrite step_render. simpl.
    rewrite Hl. simpl.
    rewrite (loading_unmounts s Hreach Hl).
    unfold Home.showsTable. simpl. split; [reflexivity|]. split.
    + intros t. destruct (Api.results response); simpl; [discriminate|].
      intros [= <-]. reflexivity.
    + intros Hne. destruct (Api.results response); [congruence|].
      simpl. discriminate.
Qed.

Lemma sample_waiting_reachable : reachable Sample.waiting.
Proof. unfold Sample.waiting. apply reachable_step, reachable_initial. Qed.

Lemma sample_onPageTwo_reachable : reachable Sample.onPageTwo.
Proof.
  unfold Sample.onPageTwo. do 2 apply reachable_step.
  apply sample_waiting_reachable.
Qed.

Lemma sample_filtered_reachable : reachable Sample.filtered.
Proof.
  unfold Sample.filtered. do 2 apply reachable_step.
  apply sample_waiting_reachable.
Qed.

(** From page 2 of 151 records, typing a filter shows page 1; a
    search that returns one record shows page 1. *)
Lemma C2_witness :
  option_map ResultsTable.currentPage (table Sample.onPageTwo) = Some 2
  /\ option_map ResultsTable.currentPage
       (table (fst (step (FilterChange "b") Sample.onPageTwo))) = Some 1
  /\ option_map ResultsTable.currentPage
       (table (fst (step (SearchSettled
                           (Home.Resolved (Sample.response [Sample.bob])))
                         Sample.waiting))) = Some 1.
Proof.
  pose proof (C2_page_resets_on_filter_change_and_new_results
                Sample.onPageTwo sample_onPageTwo_reachable) as [Hf _].
  pose proof (C2_page_resets_on_filter_change_and_new_results
                Sample.waiting sample_waiting_reachable) as [_ Hs].
  specialize (Hf "b" ltac:(discriminate)).
  specialize (Hs (Sample.response [Sample.bob]) eq_refl).
  cbv zeta in Hf, Hs.
  destruct Hf as [Hf1 Hf2]. destruct Hs as (_ & Hs1 & Hs2).
  split; [reflexivity|]. split.
  - destruct (table (fst (step (FilterChange "b") Sample.onPageTwo)))
      as [t|] eqn:E.
    + simpl. rewrite (Hf1 t eq_refl). reflexivity.
    + exfalso. apply Hf2; [discriminate | reflexivity].
  - destruct (table (fst (step (SearchSettled
                                  (Home.Resolved (Sample.response [Sample.bob])))
                               Sample.waiting))) as [t|] eqn:E.
    + simpl. rewrite (Hs1 t eq_refl). reflexivity.
    + exfalso. apply Hs2; [discriminate | reflexivity].
Defined.

(** C7.  While the loading flag is set, a click on Search changes
    nothing and sends nothing. *)
Theorem C7_search_ignored_while_loading :
  forall (s : State),
    reachable s ->
    Home.loading (home s) = true ->
    step Search s = (s, [])
    /\ Home.handleSearch_begin (home s) = (home s, [])
    /\ (forall o, Home.handleSearch o (home s) = (home s, [])).
Proof.
  intros s Hreach Hl. apply reachable_rendered in Hreach.
  unfold step, handle, Home.handleSearch, Home.handleSearch_begin.
  rewrite Hl. repeat split.
  unfold withHome.
  replace {| home := home s; table := table s |} with s
    by (destruct s; reflexivity).
  rewrite (rendered_render s Hreach). reflexivity.
Qed.

(** A second click on Search while the first request is out. *)
Lemma C7_witness :
  Home.loading (home Sample.waiting) = true
  /\ step Search Sample.waiting = (Sample.waiting, []).
Proof.
  split; [reflexivity|].
  apply (C7_search_ignored_while_loading
           Sample.waiting sample_waiting_reachable eq_refl).
Defined.

Lemma join_concat (sep : string) (l : list string) :
  JS.join sep l = String.concat sep l.
Proof.
  induction l as [|x l IH]; [reflexivity|].
  destruct l as [|y l]; [reflexivity|].
  change (JS.join sep (x :: y :: l))
    with (x ++ sep ++ JS.join sep (y :: l))%string.
  rewrite IH. reflexivity.
Qed.

(** C9.  Copy-all writes the text made of one line per record of the
    whole result set held by [Home], in its order, the fields
    master_id, name, fname, mobile, alt, email, address separated by
    the tab character (9) and the lines by the newline character (10);
    the filter text and the current page play no part, and nothing in
    the state changes. *)
Theorem C9_copy_all_writes_the_whole_result_set :
  forall (R : list Api.SearchResult) (clipboardOk : bool),
    ResultsTable.copyAllResults R clipboardOk
    = ClipboardWrite (Spec.copyText R)
        :: (if clipboardOk then [] else [ConsoleError "Failed to copy all:"])
    /\ (forall s : State,
          reachable s ->
          Home.results (home s) = R ->
          table s <> None ->
          step (CopyAll clipboardOk) s
          = (s, ResultsTable.copyAllResults R clipboardOk)).
Proof.
  intros R ok. split.
  - unfold ResultsTable.copyAllResults, Spec.copyText.
    rewrite join_concat.
    rewrite (map_ext ResultsTable.rowText Spec.copyLine)
      by (intros r; reflexivity).
    reflexivity.
  - intros s Hreach HR Ht. apply reachable_rendered in Hreach.
    unfold step, handle. rewrite HR.
    destruct (table s); [|congruence].
    rewrite (rendered_render s Hreach). reflexivity.
Qed.

(** With the filter ["bob"] hiding the first of two records, copy-all
    still writes both. *)
Lemma C9_witness :
  Home.filterText (home Sample.filtered) = "bob"
  /\ ResultsTable.filteredResults (Home.results (home Sample.filtered))
       (Home.filterText (home Sample.filtered)) = [Sample.bob]
  /\ (let tab := String "009"%char EmptyString in
      let newline := String "010"%char EmptyString in
      step (CopyAll true) Sample.filtered
      = (Sample.filtered,
         [ClipboardWrite
            ("7" ++ tab ++ "Ann" ++ tab ++ "Joe" ++ tab ++ "5550101"
             ++ tab ++ "" ++ tab ++ "a@b.com" ++ tab ++ "1 High St"
             ++ newline ++
             "8" ++ tab ++ "Bob" ++ tab ++ "Tom" ++ tab ++ "5550102"
             ++ tab ++ "5550103" ++ tab ++ "b@c.org" ++ tab
             ++ "2 Low Rd")%string])).
Proof.
  split; [reflexivity|]. split; [reflexivity|]. intros tab newline.
  rewrite (proj2 (C9_copy_all_writes_the_whole_result_set
                    [Sample.ann; Sample.bob] true)
             Sample.filtered sample_filtered_reachable eq_refl
             ltac:(discriminate)).
  rewrite (proj1 (C9_copy_all_writes_the_whole_result_set
                    [Sample.ann; Sample.bob] true)).
  reflexivity.
Defined.

End Page.

(** * Further properties of the code *)

(** ** Rows on a page and the header line *)

Section PageRows.
Import Api.

Lemma page_length (l : list SearchResult) (p : Z) :
  1 <= p ->
  Z.of_nat (List.length (ResultsTable.paginatedResults l p))
  = Z.max 0 (Z.min 100 (Z.of_nat (List.length l) - (p - 1) * 100)).
Proof.
  intros Hp. rewrite paginatedResults_window by exact Hp.
  rewrite length_firstn, length_skipn. lia.
Qed.

(** X1.  On every existing page, the number of rows is what the header
    line announces ("Showing a-b"): between 1 and 100 rows, and exactly
    100 on every page but the last. *)
Theorem X1_rows_on_page_match_header :
  forall (filtered : list SearchResult) (p : Z),
    1 <= p <= ResultsTable.totalPages filtered ->
    let rows := Z.of_nat (List.length (ResultsTable.paginatedResults filtered p)) in
    rows = ResultsTable.showingTo filtered p - ResultsTable.showingFrom p + 1
    /\ 1 <= rows <= 100
    /\ (p < ResultsTable.totalPages filtered -> rows = 100).
Proof.
  intros filtered p [Hp1 Hp2] rows. subst rows.
  rewrite page_length by exact Hp1.
  pose proof (totalPages_bounds filtered) as Hb.
  unfold ResultsTable.showingTo, ResultsTable.showingFrom,
    ResultsTable.endIndex, ResultsTable.startIndex,
    ResultsTable.RESULTS_PER_PAGE.
  repeat split; lia.
Qed.

(** Page 3 of 250 records: rows 201 to 250. *)
Lemma X1_witness :
  let l := repeat Sample.ann 250 in
  Z.of_nat (List.length (ResultsTable.paginatedResults l 3)) = 50
  /\ ResultsTable.showingFrom 3 = 201
  /\ ResultsTable.showingTo l 3 = 250.
Proof.
  intros l.
  pose proof (X1_rows_on_page_match_header l 3 ltac:(vm_compute; split; discriminate))
    as [H _].
  split; [|split; reflexivity].
  rewrite H. reflexivity.
Defined.

(** X2.  A page number past the last page shows no row, and so does
    page 0; in particular an empty filtered sequence has no page at all
    (total pages 0, controls hidden) and its header reads "1-0". *)
Theorem X2_no_rows_outside_the_pages :
  forall (filtered : list SearchResult) (p : Z),
    (ResultsTable.totalPages filtered < p \/ p = 0 ->
       ResultsTable.paginatedResults filtered p = [])
    /\ (filtered = [] ->
          ResultsTable.totalPages filtered = 0
          /\ ResultsTable.showsPagination (ResultsTable.totalPages filtered) = false
          /\ ResultsTable.showingFrom 1 = 1
          /\ ResultsTable.showingTo filtered 1 = 0).
Proof.
  intros filtered p. split.
  - intros [Hp | ->].
    + pose proof (totalPages_bounds filtered) as Hb.
      assert (1 <= p) by lia.
      rewrite paginatedResults_window by assumption.
      rewrite skipn_all2 by lia. apply firstn_nil.
    + unfold ResultsTable.paginatedResults, JS.slice. simpl.
      unfold ResultsTable.endIndex, ResultsTable.startIndex,
        ResultsTable.RESULTS_PER_PAGE.
      match goal with
      | |- firstn ?n _ = _ => replace n with 0%nat by lia
      end.
      reflexivity.
  - intros ->. repeat split.
Qed.

(** 250 records have 3 pages: page 4 is empty, and page 0 too. *)
Lemma X2_witness :
  ResultsTable.paginatedResults (repeat Sample.ann 250) 4 = []
  /\ ResultsTable.paginatedResults (repeat Sample.ann 250) 0 = [].
Proof.
  split.
  - apply (proj1 (X2_no_rows_outside_the_pages (repeat Sample.ann 250) 4)).
    left. vm_compute. reflexivity.
  - apply (proj1 (X2_no_rows_outside_the_pages (repeat Sample.ann 250) 0)).
    right. reflexivity.
Defined.

End PageRows.

(** ** The pagination controls *)

Section Controls.

Lemma pageNum_from_first (totalPages currentPage : Z) :
  1 <= currentPage <= totalPages ->
  exists first,
    (forall i, ResultsTable.pageNum totalPages currentPage i = first + i)
    /\ 1 <= first
    /\ first + Z.min 5 totalPages - 1 <= totalPages
    /\ first <= currentPage <= first + Z.min 5 totalPages - 1.
Proof.
  intros H. unfold ResultsTable.pageNum.
  destruct (Z.leb_spec totalPages 5).
  - exists 1. split; [intros; lia | lia].
  - destruct (Z.leb_spec currentPage 3).
    + exists 1. split; [intros; lia | lia].
    + destruct (Z.leb_spec (totalPages - 2) currentPage).
      * exists (totalPages - 4). split; [intros; lia | lia].
      * exists (currentPage - 2). split; [intros; lia | lia].
Qed.

(** X3.  When the current page is an existing page, the page buttons
    are [min(5, totalPages)] consecutive page numbers, all of them
    existing pages, and the current page is one of them; so a click on
    any button is accepted by [goToPage] and lands on the page the
    button shows. *)
Theorem X3_page_buttons_are_a_window_around_the_current_page :
  forall (totalPages currentPage : Z),
    1 <= currentPage <= totalPages ->
    let buttons := ResultsTable.pageButtons totalPages currentPage in
    (exists first,
        buttons = List.map (fun i => first + Z.of_nat i)
                           (seq 0 (Z.to_nat (Z.min 5 totalPages))))
    /\ (forall b, In b buttons -> 1 <= b <= totalPages)
    /\ In currentPage buttons
    /\ NoDup buttons
    /\ (forall b st, In b buttons ->
          ResultsTable.currentPage
            (fst (ResultsTable.goToPage totalPages b st)) = b).
Proof.
  intros totalPages currentPage H buttons.
  destruct (pageNum_from_first totalPages currentPage H)
    as (first & Hnum & H1 & H2 & H3).
  assert (Hb : buttons = List.map (fun i => first + Z.of_nat i)
                                  (seq 0 (Z.to_nat (Z.min 5 totalPages)))).
  { subst buttons. unfold ResultsTable.pageButtons.
    apply map_ext. intros i. apply Hnum. }
  assert (Hin : forall b, In b buttons -> 1 <= b <= totalPages).
  { intros b. rewrite Hb, in_map_iff. intros (i & <- & Hi).
    apply in_seq in Hi. lia. }
  split; [exists first; exact Hb|]. split; [exact Hin|]. split; [|split].
  - rewrite Hb. apply in_map_iff.
    exists (Z.to_nat (currentPage - first)). split; [lia|].
    apply in_seq. lia.
  - rewrite Hb. apply Injective_map_NoDup; [|apply seq_NoDup].
    intros i j Hij. lia.
  - intros b st Hbin. apply Hin in Hbin.
    unfold ResultsTable.goToPage.
    destruct (Z.leb_spec 1 b); [|lia].
    destruct (Z.leb_spec b totalPages); [|lia].
    reflexivity.
Qed.

(** Ten pages, page 8 current: the buttons are 6 to 10. *)
Lemma X3_witness :
  ResultsTable.pageButtons 10 8 = [6; 7; 8; 9; 10]
  /\ In 8 (ResultsTable.pageButtons 10 8).
Proof.
  split; [reflexivity|].
  apply (X3_page_buttons_are_a_window_around_the_current_page 10 8). lia.
Defined.

(** X4.  Next then Previous comes back to the state one started from,
    whenever there is a next page; Next on the last page and Previous on
    the first page change nothing, also when the buttons, disabled
    there, are clicked all the same. *)
Theorem X4_next_and_previous :
  forall (totalPages : Z) (st : ResultsTable.State),
    (1 <= ResultsTable.currentPage st < totalPages ->
       fst (ResultsTable.goPrevious totalPages
              (fst (ResultsTable.goNext totalPages st))) = st
       /\ ResultsTable.currentPage (fst (ResultsTable.goNext totalPages st))
          = ResultsTable.currentPage st + 1)
    /\ (ResultsTable.nextDisabled totalPages (ResultsTable.currentPage st) = true ->
          ResultsTable.goNext totalPages st = (st, []))
    /\ (ResultsTable.previousDisabled (ResultsTable.currentPage st) = true ->
          ResultsTable.goPrevious totalPages st = (st, [])).
Proof.
  intros totalPages [cid cur memo]. simpl.
  unfold ResultsTable.goPrevious, ResultsTable.goNext, ResultsTable.goToPage,
    ResultsTable.nextDisabled, ResultsTable.previousDisabled.
  simpl. split; [|split].
  - intros H.
    destruct (Z.leb_spec 1 (cur + 1)); [|lia].
    destruct (Z.leb_spec (cur + 1) totalPages); [|lia].
    simpl.
    destruct (Z.leb_spec 1 (cur + 1 - 1)); [|lia].
    destruct (Z.leb_spec (cur + 1 - 1) totalPages); [|lia].
    simpl. split; [|reflexivity]. f_equal. lia.
  - intros H. apply Z.eqb_eq in H.
    destruct (Z.leb_spec 1 (cur + 1)); simpl; [|reflexivity].
    destruct (Z.leb_spec (cur + 1) totalPages); [lia | reflexivity].
  - intros H. apply Z.eqb_eq in H.
    destruct (Z.leb_spec 1 (cur - 1)); [lia | reflexivity].
Qed.

(** Three pages: from page 2, Next goes to 3 and Previous comes back;
    on page 3 Next does nothing. *)
Lemma X4_witness :
  let st := ResultsTable.mkState None 2 "" in
  let last := ResultsTable.mkState None 3 "" in
  fst (ResultsTable.goPrevious 3 (fst (ResultsTable.goNext 3 st))) = st
  /\ ResultsTable.goNext 3 last = (last, []).
Proof.
  intros st last. split.
  - apply (proj1 (X4_next_and_previous 3 st)). simpl. lia.
  - apply (proj1 (proj2 (X4_next_and_previous 3 last))). reflexivity.
Defined.

End Controls.

(** ** The current page stays on an existing page *)

Section PageInvariant.
Import App.

Lemma render_inRange (s : State) : pageInRange s -> pageInRange (render s).
Proof.
  destruct s as [h tb]. unfold pageInRange, render, filtered. simpl.
  intros H t.
  destruct (Home.showsTable h); [|discriminate].
  destruct tb as [t0|]; intros [= <-].
  - unfold ResultsTable.rerender.
    destruct (String.eqb _ _); simpl; [apply H; reflexivity | lia].
  - simpl. lia.
Qed.

Lemma step_inRange (e : Event) (s : State) :
  rendered s -> pageInRange s -> pageInRange (fst (step e s)).
Proof.
  intros Hr H. rewrite step_render.
  destruct s as [h tb]. unfold rendered in Hr. simpl in Hr.
  destruct e; simpl.
  - apply render_inRange. exact H.
  - apply render_inRange. exact H.
  - apply render_inRange. unfold Home.handleSearch_begin.
    destruct (Home.loading h); exact H.
  - apply render_inRange.
    destruct (Home.loading h) eqn:Hl; [|exact H].
    destruct tb as [t0|].
    + destruct Hr as [Hs _]. unfold Home.showsTable in Hs.
      rewrite Hl in Hs. discriminate.
    + destruct o; intros t; discriminate.
  - unfold pageInRange, render. simpl. intros t.
    unfold Home.showsTable. simpl. rewrite andb_false_r. discriminate.
  - unfold pageInRange, render, filtered. simpl. intros t.
    change (Home.showsTable (Home.setFilterText text h))
      with (Home.showsTable h).
    destruct (Home.showsTable h); [|discriminate].
    destruct tb as [t0|]; intros [= <-]; [|simpl; lia].
    destruct Hr as [_ Hm]. unfold ResultsTable.rerender.
    destruct (String.eqb_spec (ResultsTable.memoFilterText t0) text) as [E|E].
    + rewrite <- E, Hm. apply (H t0). reflexivity.
    + simpl. lia.
  - apply render_inRange.
    destruct tb as [t0|]; [|exact H].
    unfold pageInRange, filtered in *. simpl in *.
    specialize (H t0 eq_refl).
    unfold ResultsTable.goToPage.
    destruct (Z.leb_spec 1 page); simpl; [|intros t [= <-]; exact H].
    destruct (Z.leb_spec page
                (ResultsTable.totalPages
                   (ResultsTable.filteredResults
                      (Home.results h) (Home.filterText h))));
      simpl; intros t [= <-]; simpl; lia.
  - apply render_inRange. destruct tb; exact H.
  - apply render_inRange. unfold pageInRange, filtered in *. simpl in *.
    destruct tb as [t0|]; intros t [= <-]. simpl. apply H. reflexivity.
  - apply render_inRange. unfold pageInRange, filtered in *. simpl in *.
    destruct tb as [t0|]; intros t [= <-]. simpl. apply H. reflexivity.
Qed.

Lemma reachable_inRange (s : State) : reachable s -> pageInRange s.
Proof.
  induction 1 as [|e s Hs IH].
  - intros t. discriminate.
  - apply step_inRange; [apply reachable_rendered; exact Hs | exact IH].
Qed.

(** X5.  Whatever the user does, the page held by the table is an
    existing page of the filtered sequence (page 1 when the filter
    leaves nothing), and as soon as the filter leaves something the
    page shown has rows: the table never sits on an empty page past the
    end. *)
Theorem X5_current_page_always_exists :
  forall (s : State) (t : ResultsTable.State),
    reachable s ->
    table s = Some t ->
    1 <= ResultsTable.currentPage t
      <= Z.max 1 (ResultsTable.totalPages (filtered s))
    /\ (filtered s <> [] ->
          ResultsTable.paginatedResults (filtered s)
                                        (ResultsTable.currentPage t) <> []).
Proof.
  intros s t Hreach Ht.
  pose proof (reachable_inRange s Hreach t Ht) as Hrange.
  split; [exact Hrange|].
  intros Hne Hnil.
  pose proof (totalPages_bounds (filtered s)) as Hb.
  pose proof (page_length (filtered s) (ResultsTable.currentPage t)
                          ltac:(lia)) as Hlen.
  rewrite Hnil in Hlen. simpl in Hlen.
  assert (0 < Z.of_nat (List.length (filtered s)))
    by (destruct (filtered s); [congruence | simpl; lia]).
  lia.
Qed.

(** On page 2 of 151 records, then with a filter that keeps one record:
    the table is on page 1 and shows that record. *)
Lemma X5_witness :
  let s := fst (step (FilterChange "bob") Sample.onPageTwo) in
  option_map ResultsTable.currentPage (table s) = Some 1
  /\ (forall t, table s = Some t ->
        ResultsTable.paginatedResults (filtered s)
                                      (ResultsTable.currentPage t) <> []).
Proof.
  intros s. split; [reflexivity|].
  intros t Ht.
  apply (proj2 (X5_current_page_always_exists s t
                  (reachable_step _ _ sample_onPageTwo_reachable) Ht)).
  vm_compute. discriminate.
Defined.

End PageInvariant.

(** ** More on the filter *)

Section FilterFacts.
Import Api.

Lemma string_app_assoc (a b c : string) :
  ((a ++ b) ++ c)%string = (a ++ b ++ c)%string.
Proof. induction a as [|x a IH]; simpl; [reflexivity | rewrite IH; reflexivity]. Qed.

Lemma lowerChar_idempotent (c : ascii) :
  JS.lowerChar (JS.lowerChar c) = JS.lowerChar c.
Proof. destruct c as [[] [] [] [] [] [] [] []]; reflexivity. Qed.

Lemma toLowerCase_idempotent (s : string) :
  JS.toLowerCase (JS.toLowerCase s) = JS.toLowerCase s.
Proof.
  induction s as [|c s IH]; simpl; [reflexivity|].
  rewrite lowerChar_idempotent, IH. reflexivity.
Qed.

Lemma truthy_toLowerCase (s : string) :
  JS.truthy (JS.toLowerCase s) = JS.truthy s.
Proof. destruct s; reflexivity. Qed.

Lemma isSubstring_trans (a b c : string) :
  Spec.isSubstring a b -> Spec.isSubstring b c -> Spec.isSubstring a c.
Proof.
  intros (p1 & q1 & ->) (p2 & q2 & ->).
  exists (p2 ++ p1)%string, (q1 ++ q2)%string.
  rewrite !string_app_assoc. reflexivity.
Qed.

Lemma includes_longer (s a b : string) :
  Spec.isSubstring a b -> JS.includes s b = true -> JS.includes s a = true.
Proof.
  rewrite !includes_spec. intros Hab Hb.
  exact (isSubstring_trans a b s Hab Hb).
Qed.

Lemma matchesFilter_longer (a b : string) (r : SearchResult) :
  Spec.isSubstring a b ->
  ResultsTable.matchesFilter b r = true ->
  ResultsTable.matchesFilter a r = true.
Proof.
  intros Hab. unfold ResultsTable.matchesFilter.
  rewrite !orb_true_iff.
  intros H. repeat (destruct H as [H | H]);
    apply (includes_longer _ a b Hab) in H; tauto.
Qed.

Lemma filter_narrower {A : Type} (p q : A -> bool) (l : list A) :
  (forall x, q x = true -> p x = true) ->
  List.filter q (List.filter p l) = List.filter q l.
Proof.
  intros Hqp. induction l as [|x l IH]; simpl; [reflexivity|].
  destruct (p x) eqn:Ep; simpl.
  - rewrite IH. reflexivity.
  - destruct (q x) eqn:Eq; [|exact IH].
    apply Hqp in Eq. congruence.
Qed.

Lemma filteredResults_narrower (R : list SearchResult) (f g : string) :
  Spec.isSubstring (JS.toLowerCase f) (JS.toLowerCase g) ->
  (JS.truthy f = true -> JS.truthy g = true) ->
  ResultsTable.filteredResults (ResultsTable.filteredResults R f) g
  = ResultsTable.filteredResults R g.
Proof.
  intros Hsub Ht. unfold ResultsTable.filteredResults.
  destruct (JS.truthy f) eqn:Ef; simpl; [|reflexivity].
  rewrite (Ht eq_refl). simpl.
  apply filter_narrower. intros r. apply matchesFilter_longer. exact Hsub.
Qed.

Lemma filteredResults_In (R : list SearchResult) (f : string) (r : SearchResult) :
  In r (ResultsTable.filteredResults R f) <-> In r R /\ Spec.passes f r.
Proof.
  unfold ResultsTable.filteredResults.
  destruct (JS.truthy f) eqn:Ef; simpl.
  - rewrite filter_In, matchesFilter_passes. reflexivity.
  - apply truthy_false in Ef. subst f. split; [|tauto].
    intros H. split; [exact H | apply passes_empty].
Qed.

Lemma filteredResults_length (R : list SearchResult) (f : string) :
  (List.length (ResultsTable.filteredResults R f) <= List.length R)%nat.
Proof.
  unfold ResultsTable.filteredResults.
  destruct (JS.truthy f); simpl; [apply filter_length_le | lia].
Qed.

Lemma truthy_of_substring (f g : string) :
  Spec.isSubstring (JS.toLowerCase f) (JS.toLowerCase g) ->
  JS.truthy f = true -> JS.truthy g = true.
Proof.
  intros (pre & post & H) Hf.
  destruct g as [|c g]; [|reflexivity].
  destruct f as [|d f]; [discriminate|].
  simpl in H. destruct pre; discriminate.
Qed.

(** X6.  When the lowercased form of a filter text [f] occurs inside
    the lowercased form of a filter text [g], the filter [g] only
    narrows the rows of [f]: the rows for [g] are the rows for [f]
    filtered again with [g], each of them is a row for [f], and there
    are no more of them. *)
Theorem X6_longer_filter_narrows :
  forall (R : list SearchResult) (f g : string),
    Spec.isSubstring (JS.toLowerCase f) (JS.toLowerCase g) ->
    ResultsTable.filteredResults (ResultsTable.filteredResults R f) g
    = ResultsTable.filteredResults R g
    /\ (forall r, In r (ResultsTable.filteredResults R g) ->
                  In r (ResultsTable.filteredResults R f))
    /\ (List.length (ResultsTable.filteredResults R g)
        <= List.length (ResultsTable.filteredResults R f))%nat.
Proof.
  intros R f g Hsub.
  assert (H1 : ResultsTable.filteredResults
                 (ResultsTable.filteredResults R f) g
               = ResultsTable.filteredResults R g).
  { apply filteredResults_narrower; [exact Hsub|].
    apply truthy_of_substring. exact Hsub. }
  split; [exact H1|]. split.
  - intros r Hr. rewrite <- H1 in Hr.
    apply filteredResults_In in Hr. tauto.
  - rewrite <- H1. apply filteredResults_length.
Qed.

(** The filters ["O"] then ["ob"] on two records. *)
Lemma X6_witness :
  ResultsTable.filteredResults [Sample.ann; Sample.bob] "O" = [Sample.ann; Sample.bob]
  /\ ResultsTable.filteredResults [Sample.ann; Sample.bob] "ob" = [Sample.bob]
  /\ ResultsTable.filteredResults
       (ResultsTable.filteredResults [Sample.ann; Sample.bob] "O") "ob"
     = [Sample.bob].
Proof.
  split; [reflexivity|]. split; [reflexivity|].
  rewrite (proj1 (X6_longer_filter_narrows
                    [Sample.ann; Sample.bob] "O" "ob"
                    (ex_intro _ "" (ex_intro _ "b" eq_refl)))).
  reflexivity.
Defined.

(** X7.  The filter text is used through its lowercase form only: a
    filter and its lowercased spelling give the same rows. *)
Theorem X7_filter_ignores_case_of_filter_text :
  forall (R : list SearchResult) (f : string),
    ResultsTable.filteredResults R (JS.toLowerCase f)
    = ResultsTable.filteredResults R f.
Proof.
  intros R f. unfold ResultsTable.filteredResults.
  rewrite truthy_toLowerCase, toLowerCase_idempotent. reflexivity.
Qed.

Lemma totalPages_monotone (l1 l2 : list SearchResult) :
  (List.length l1 <= List.length l2)%nat ->
  ResultsTable.totalPages l1 <= ResultsTable.totalPages l2.
Proof.
  intros Hlen.
  pose proof (totalPages_bounds l1). pose proof (totalPages_bounds l2).
  lia.
Qed.

(** X8.  Filtering never adds anything: every row shown is a record of
    the result set, there are at most as many rows and at most as many
    pages as without a filter; and the message "No results match your
    filter criteria" appears exactly when the result set is not empty
    and none of its records passes the filter. *)
Theorem X8_filter_never_adds_rows_or_pages :
  forall (R : list SearchResult) (f : string),
    let filtered := ResultsTable.filteredResults R f in
    (forall r, In r filtered -> In r R)
    /\ (List.length filtered <= List.length R)%nat
    /\ ResultsTable.totalPages filtered <= ResultsTable.totalPages R
    /\ (ResultsTable.showsNoMatch R filtered = true
        <-> R <> [] /\ forall r, In r R -> ~ Spec.passes f r).
Proof.
  intros R f filtered. subst filtered.
  split; [|split; [|split]].
  - intros r Hr. apply filteredResults_In in Hr. tauto.
  - apply filteredResults_length.
  - apply totalPages_monotone, filteredResults_length.
  - unfold ResultsTable.showsNoMatch.
    rewrite andb_true_iff, Z.eqb_eq, Z.ltb_lt. split.
    + intros [H0 Hpos]. split.
      * intros ->. simpl in Hpos. lia.
      * intros r Hin Hp.
        assert (Hr : In r (ResultsTable.filteredResults R f))
          by (apply filteredResults_In; tauto).
        destruct (ResultsTable.filteredResults R f);
          [contradiction | simpl in H0; lia].
    + intros [Hne Hnone]. split.
      * destruct (ResultsTable.filteredResults R f) as [|r l] eqn:E;
          [reflexivity|].
        exfalso.
        assert (Hr : In r (ResultsTable.filteredResults R f))
          by (rewrite E; left; reflexivity).
        apply filteredResults_In in Hr. destruct Hr as [Hin Hp].
        exact (Hnone r Hin Hp).
      * destruct R; [congruence | simpl; lia].
Qed.

(** The filter ["zz"] matches neither of two records. *)
Lemma X8_witness :
  ResultsTable.showsNoMatch
    [Sample.ann; Sample.bob]
    (ResultsTable.filteredResults [Sample.ann; Sample.bob] "zz") = true
  /\ forall r, In r (ResultsTable.filteredResults [Sample.ann; Sample.bob] "ob") ->
                In r [Sample.ann; Sample.bob].
Proof.
  split; [reflexivity|].
  apply (proj1 (X8_filter_never_adds_rows_or_pages [Sample.ann; Sample.bob] "ob")).
Defined.

End FilterFacts.

(** ** The request payload *)

Section Payload.
Import Home.

Lemma trimStart_fixed (s : string) :
  match s with
  | EmptyString => True
  | String c _ => JS.isSpace c = false
  end ->
  JS.trimStart s = s.
Proof. destruct s as [|c s]; simpl; [reflexivity | intros ->; reflexivity]. Qed.

Lemma trimStart_head (s : string) :
  match JS.trimStart s with
  | EmptyString => True
  | String c _ => JS.isSpace c = false
  end.
Proof.
  induction s as [|c s IH]; simpl; [exact I|].
  destruct (JS.isSpace c) eqn:E; [exact IH | exact E].
Qed.

Lemma trimEnd_head (c : ascii) (s : string) :
  JS.isSpace c = false -> exists w, JS.trimEnd (String c s) = String c w.
Proof.
  intros Hc. simpl. destruct (JS.trimEnd s).
  - rewrite Hc. eauto.
  - eauto.
Qed.

Lemma trimEnd_idempotent (s : string) :
  JS.trimEnd (JS.trimEnd s) = JS.trimEnd s.
Proof.
  induction s as [|c s IH]; simpl; [reflexivity|].
  destruct (JS.trimEnd s) as [|d t] eqn:E.
  - destruct (JS.isSpace c) eqn:Ec; simpl; [reflexivity|].
    rewrite Ec. reflexivity.
  - simpl in IH |- *. rewrite IH. reflexivity.
Qed.

Lemma trim_idempotent (s : string) : JS.trim (JS.trim s) = JS.trim s.
Proof.
  unfold JS.trim.
  pose proof (trimStart_head s) as Hh.
  destruct (JS.trimStart s) as [|c u]; [reflexivity|].
  destruct (trimEnd_head c u Hh) as [w Hw].
  rewrite Hw. rewrite trimStart_fixed by exact Hh.
  rewrite <- Hw. apply trimEnd_idempotent.
Qed.

Lemma addFields_closed (es : list (string * string)) (payload : Api.SearchRequest) :
  addFields es payload
  = (payload
     ++ List.map (fun e => (fst e, JS.trim (snd e)))
          (List.filter (fun e => JS.truthy (JS.trim (snd e))) es))%list.
Proof.
  revert payload. induction es as [|[k v] es IH]; intros payload; simpl.
  - rewrite app_nil_r. reflexivity.
  - destruct (JS.truthy (JS.trim v)); simpl.
    + rewrite IH, <- app_assoc. reflexivity.
    + apply IH.
Qed.

Lemma entries_by_key (f : SearchFields) :
  entries f
  = List.map (fun k => (SearchForm.keyName k, SearchForm.get k f))
             SearchForm.allKeys.
Proof. reflexivity. Qed.

Lemma NoDup_keys_filter {A : Type} (p : string * A -> bool)
      (l : list (string * A)) :
  NoDup (List.map fst l) -> NoDup (List.map fst (List.filter p l)).
Proof.
  induction l as [|x l IH]; simpl; intros H; [constructor|].
  inversion H as [|? ? Hnotin Hnd]; subst.
  destruct (p x); simpl; [|auto].
  constructor; [|auto].
  intros Hin. apply Hnotin.
  apply in_map_iff in Hin. destruct Hin as (y & Hy & Hin).
  apply filter_In in Hin. apply in_map_iff. exists y. tauto.
Qed.

Lemma truthy_true_iff (s : string) : JS.truthy s = true <-> s <> "".
Proof. destruct s; simpl; split; congruence. Qed.

(** X9.  The payload of a search starts with the [filter] entry giving
    the mode; after it come, in the order of the form, exactly the
    fields whose value is not blank, each with its value trimmed: no
    value sent is empty or has white space at either end, a field left
    blank is not sent at all, and no key is sent twice. *)
Theorem X9_payload_holds_the_mode_and_the_non_blank_fields :
  forall (s : State),
    let fields := searchFields s in
    exists rest,
      buildPayload s = ("filter", modeText (searchMode s)) :: rest
      /\ (forall k v,
            In (k, v) rest <->
            exists key, k = SearchForm.keyName key
                        /\ v = JS.trim (SearchForm.get key fields)
                        /\ v <> "")
      /\ (forall k v, In (k, v) rest -> v <> "" /\ Spec.trimmed v)
      /\ NoDup (List.map fst (buildPayload s)).
Proof.
  intros s fields. unfold buildPayload. rewrite addFields_closed.
  fold fields.
  assert (Hes : forall k v,
             In (k, v) (entries fields)
             <-> exists key, k = SearchForm.keyName key
                             /\ v = SearchForm.get key fields).
  { intros k v. rewrite entries_by_key, in_map_iff. split.
    - intros (key & [= <- <-] & _). eauto.
    - intros (key & -> & ->). exists key. split; [reflexivity|].
      destruct key; simpl; tauto. }
  assert (Hnd : NoDup (List.map fst (entries fields)))
    by (simpl; repeat constructor; simpl; intuition discriminate).
  assert (Hnf : ~ In "filter" (List.map fst (entries fields)))
    by (simpl; intuition discriminate).
  set (es := entries fields) in *. clearbody es.
  set (rest := List.map (fun e => (fst e, JS.trim (snd e)))
                 (List.filter (fun e => JS.truthy (JS.trim (snd e))) es)).
  assert (Hin : forall k v,
             In (k, v) rest
             <-> exists key, k = SearchForm.keyName key
                             /\ v = JS.trim (SearchForm.get key fields)
                             /\ v <> "").
  { intros k v. subst rest. rewrite in_map_iff. split.
    - intros ([k0 v0] & [= <- <-] & Hf).
      apply filter_In in Hf. destruct Hf as [Hf Ht].
      apply Hes in Hf. destruct Hf as (key & -> & ->).
      exists key. simpl in Ht. apply truthy_true_iff in Ht. auto.
    - intros (key & -> & -> & Hne).
      exists (SearchForm.keyName key, SearchForm.get key fields).
      split; [reflexivity|]. apply filter_In. split.
      + apply Hes. eauto.
      + simpl. apply truthy_true_iff. exact Hne. }
  assert (Hkeys : List.map fst rest
                  = List.map fst
                      (List.filter (fun e => JS.truthy (JS.trim (snd e))) es)).
  { subst rest. rewrite map_map. reflexivity. }
  exists rest. split; [reflexivity|]. split; [exact Hin|]. split.
  - intros k v Hkv. apply Hin in Hkv. destruct Hkv as (key & _ & -> & Hne).
    split; [exact Hne | apply trim_idempotent].
  - change (NoDup ("filter" :: List.map fst rest)). rewrite Hkeys.
    constructor.
    + intros Hf. apply Hnf.
      apply in_map_iff in Hf. destruct Hf as (e & He & Hf).
      apply filter_In in Hf. apply in_map_iff. exists e. tauto.
    + apply NoDup_keys_filter. exact Hnd.
Qed.

(** Name and mobile typed with spaces around, the other fields blank. *)
Lemma X9_witness :
  let s := setSearchFields
             (mkSearchFields "" " Ann " "   " "" "" "" "5550101 ") initial in
  buildPayload s = [("filter", "AND"); ("name", "Ann"); ("mobile", "5550101")]
  /\ forall k v, In (k, v) [("name", "Ann"); ("mobile", "5550101")] ->
                  v <> "" /\ Spec.trimmed v.
Proof.
  intros s. split; [reflexivity|].
  destruct (X9_payload_holds_the_mode_and_the_non_blank_fields s)
    as (rest & Hp & _ & Ht & _).
  injection Hp as <-. exact Ht.
Defined.

Lemma keyName_injective (k1 k2 : SearchForm.Key) :
  SearchForm.keyName k1 = SearchForm.keyName k2 -> k1 = k2.
Proof. destruct k1, k2; simpl; intros H; try reflexivity; discriminate. Qed.

Lemma buildPayload_sends (s : State) (key : SearchForm.Key) (v : string) :
  In (SearchForm.keyName key, v) (buildPayload s)
  <-> v = JS.trim (SearchForm.get key (searchFields s)) /\ v <> "".
Proof.
  unfold buildPayload. rewrite addFields_closed, entries_by_key.
  set (ks := SearchForm.allKeys).
  assert (Hall : forall k, In k ks) by (intros k; destruct k; simpl; tauto).
  clearbody ks. simpl. split.
  - intros [H | H]; [destruct key; discriminate|].
    apply in_map_iff in H. destruct H as ([k0 v0] & [= Hk <-] & Hf).
    apply filter_In in Hf. destruct Hf as [Hf Ht].
    apply in_map_iff in Hf. destruct Hf as (key' & [= <- <-] & _).
    apply keyName_injective in Hk. subst key'.
    simpl in Ht. apply truthy_true_iff in Ht. auto.
  - intros [-> Hne]. right. apply in_map_iff.
    exists (SearchForm.keyName key, SearchForm.get key (searchFields s)).
    split; [reflexivity|]. apply filter_In. split.
    + apply in_map_iff. exists key. auto.
    + simpl. apply truthy_true_iff. exact Hne.
Qed.

(** X10.  Typing in one field of the form changes that field and no
    other, and keeps the order of the keys; the next search then sends
    that field with the typed value trimmed, or leaves the field out
    when the value typed is blank. *)
Theorem X10_typing_in_a_field_and_searching :
  forall (key : SearchForm.Key) (value : string) (s : State),
    let fields' := SearchForm.updateField key value (searchFields s) in
    let s' := setSearchFields fields' s in
    SearchForm.get key fields' = value
    /\ (forall other, other <> key ->
          SearchForm.get other fields' = SearchForm.get other (searchFields s))
    /\ List.map fst (entries fields') = List.map fst (entries (searchFields s))
    /\ (JS.trim value <> "" ->
          In (SearchForm.keyName key, JS.trim value) (buildPayload s'))
    /\ (JS.trim value = "" ->
          ~ In (SearchForm.keyName key) (List.map fst (buildPayload s'))).
Proof.
  intros key value s fields' s'.
  assert (Hget : SearchForm.get key fields' = value)
    by (subst fields'; destruct key; reflexivity).
  split; [exact Hget|]. split; [|split; [|split]].
  - intros other Hne. subst fields'.
    destruct key, other; try reflexivity; congruence.
  - subst fields'. destruct key; reflexivity.
  - intros Hne. apply buildPayload_sends. subst s'. simpl.
    rewrite Hget. auto.
  - intros Hblank Hin. apply in_map_iff in Hin.
    destruct Hin as ([k v] & Hk & Hin). simpl in Hk. subst k.
    apply buildPayload_sends in Hin. subst s'. simpl in Hin.
    rewrite Hget in Hin. destruct Hin as [-> Hne]. contradiction.
Qed.

(** Typing [" Ann "] in the name field, or only spaces. *)
Lemma X10_witness :
  In ("name", "Ann")
     (buildPayload
        (setSearchFields
           (SearchForm.updateField SearchForm.K_name " Ann "
                                   (searchFields initial)) initial))
  /\ ~ In "name"
        (List.map fst
           (buildPayload
              (setSearchFields
                 (SearchForm.updateField SearchForm.K_name "  "
                                         (searchFields initial)) initial))).
Proof.
  split.
  - apply (proj1 (proj2 (proj2 (proj2
             (X10_typing_in_a_field_and_searching
                SearchForm.K_name " Ann " initial))))).
    discriminate.
  - apply (proj2 (proj2 (proj2 (proj2
             (X10_typing_in_a_field_and_searching
                SearchForm.K_name "  " initial))))).
    reflexivity.
Defined.

(** X11.  A search attempt that succeeds, started from an idle state,
    sends one request, puts the rows and the six statistics of the
    response in the state (each statistic under its own name), ends
    with no error, whatever error was shown before, and with the
    loading flag cleared; the search fields, the mode and the filter
    text stay, so the new rows are shown through the filter typed
    before. *)
Theorem X11_successful_search_installs_the_response :
  forall (s : State) (response : Api.SearchResponse),
    loading s = false ->
    let '(s', fx) := handleSearch (Resolved response) s in
    results s' = Api.results response
    /\ totalMatches (searchStats s') = Api.total_matches response
    /\ resultsReturned (searchStats s') = Api.results_returned response
    /\ totalTime (searchStats s') = Api.total_time_ms response
    /\ queryParseTime (searchStats s') = Api.query_parse_time_ms response
    /\ searchExecutionTime (searchStats s')
       = Api.search_execution_time_ms response
    /\ documentRetrievalTime (searchStats s')
       = Api.document_retrieval_time_ms response
    /\ error s' = None
    /\ showsBanner s' = false
    /\ loading s' = false
    /\ searchFields s' = searchFields s
    /\ searchMode s' = searchMode s
    /\ filterText s' = filterText s
    /\ fx = [Request (buildPayload s)].
Proof.
  intros s response Hidle.
  unfold handleSearch, handleSearch_begin. rewrite Hidle. simpl.
  repeat split.
Qed.

(** A search that succeeds after one that failed. *)
Lemma X11_witness :
  let failed := fst (handleSearch (Rejected (ErrorObject "Network Error"))
                                  (setFilterText "an" initial)) in
  let s' := fst (handleSearch (Resolved (Sample.response [Sample.ann])) failed) in
  error failed = Some "Network Error"
  /\ error s' = None
  /\ results s' = [Sample.ann]
  /\ filterText s' = "an".
Proof.
  intros failed s'.
  pose proof (X11_successful_search_installs_the_response
                failed (Sample.response [Sample.ann]) eq_refl) as H.
  subst s'.
  destruct (handleSearch (Resolved (Sample.response [Sample.ann])) failed)
    as [s1 fx].
  destruct H as (Hr & _ & _ & _ & _ & _ & _ & He & _ & _ & _ & _ & Hf & _).
  simpl. split; [reflexivity|]. split; [exact He|]. split; [exact Hr|].
  rewrite Hf. reflexivity.
Defined.

(** X12.  The page of [Home] is never blank: in every state it shows
    the spinner, the table, the error banner or the invitation to
    search.  The spinner is never shown together with the table or the
    invitation, and the invitation is never shown together with the
    table or the error banner. *)
Theorem X12_home_always_shows_something :
  forall (s : State),
    (showsSpinner s || showsTable s || showsBanner s || showsPlaceholder s = true)
    /\ (showsSpinner s = true ->
          showsTable s = false /\ showsPlaceholder s = false)
    /\ (showsPlaceholder s = true ->
          showsTable s = false /\ showsBanner s = false).
Proof.
  intros [fields mode rows ld err stats ft].
  unfold showsSpinner, showsTable, showsBanner, showsPlaceholder,
    errorBanner, noError.
  simpl.
  destruct ld, err as [[|c m]|], rows as [|r rows]; simpl;
    repeat split; try reflexivity; try discriminate;
    try (destruct (Pos.of_succ_nat _); reflexivity);
    intros; try discriminate; auto.
Qed.

(** While waiting: the spinner alone.  At the start: the invitation. *)
Lemma X12_witness :
  showsTable (App.home Sample.waiting) = false
  /\ showsPlaceholder (App.home Sample.waiting) = false
  /\ showsPlaceholder initial = true
  /\ showsBanner initial = false.
Proof.
  destruct (X12_home_always_shows_something (App.home Sample.waiting))
    as (_ & Hs & _).
  destruct (X12_home_always_shows_something initial) as (_ & _ & Hp).
  destruct (Hs eq_refl) as [H1 H2].
  destruct (Hp eq_refl) as [_ H4].
  repeat split; assumption || reflexivity.
Defined.

End Payload.

(** ** Requests in flight, reset, and failure seen from the page *)

Section Session.
Import App.

Lemma step_home (e : Event) (s : State) :
  home (fst (step e s)) = home (fst (handle e s)).
Proof. rewrite step_render. reflexivity. Qed.

Lemma step_effects (e : Event) (s : State) :
  snd (step e s) = snd (handle e s).
Proof. unfold step. destruct (handle e s). reflexivity. Qed.

(** What an event does to the loading flag and how many requests it
    sends. *)
Lemma handle_loading (e : Event) (s : State) :
  match e with
  | Search =>
      Home.loading (home (fst (handle e s))) = true
      /\ requestsSent (snd (handle e s))
         = if Home.loading (home s) then 0%nat else 1%nat
  | SearchSettled _ =>
      (Home.loading (home s) = true ->
       Home.loading (home (fst (handle e s))) = false)
      /\ requestsSent (snd (handle e s)) = 0%nat
  | _ =>
      Home.loading (home (fst (handle e s))) = Home.loading (home s)
      /\ requestsSent (snd (handle e s)) = 0%nat
  end.
Proof.
  destruct s as [h tb]. destruct e; simpl; try (split; reflexivity).
  - unfold Home.handleSearch_begin.
    destruct (Home.loading h) eqn:E; simpl; auto.
  - destruct (Home.loading h); [|split; [discriminate | reflexivity]].
    destruct o; simpl; split; reflexivity.
  - destruct tb as [t0|]; [|split; reflexivity].
    unfold ResultsTable.goToPage.
    destruct ((1 <=? page) && _); split; reflexivity.
  - destruct tb; [|split; reflexivity].
    destruct clipboardOk; split; reflexivity.
Qed.

Lemma outstanding_invariant (es : list Event) :
  forall (s s' : State) (n n' : nat),
    n = (if Home.loading (home s) then 1%nat else 0%nat) ->
    outstanding es s n = Some (s', n') ->
    n' = (if Home.loading (home s') then 1%nat else 0%nat).
Proof.
  induction es as [|e es IH]; intros s s' n n' Hn Hrun; simpl in Hrun.
  - injection Hrun as <- <-. exact Hn.
  - pose proof (handle_loading e s) as Hh.
    pose proof (step_home e s) as Hhome.
    pose proof (step_effects e s) as Hfx.
    destruct (step e s) as [s1 fx]. simpl in Hhome, Hfx.
    rewrite <- Hhome, <- Hfx in Hh.
    destruct e;
      try (destruct Hh as [Hl Hr]; rewrite Hr, Nat.add_0_r in Hrun;
           apply (IH s1 s' n n'); [rewrite Hl; exact Hn | exact Hrun]).
    + destruct Hh as [Hl Hr].
      apply (IH s1 s' (n + requestsSent fx)%nat n'); [|exact Hrun].
      rewrite Hl, Hr, Hn. destruct (Home.loading (home s)); reflexivity.
    + destruct Hh as [Hl Hr]. destruct n as [|m]; [discriminate|].
      rewrite Hr, Nat.add_0_r in Hrun.
      apply (IH s1 s' m n'); [|exact Hrun].
      destruct (Home.loading (home s)); [|discriminate].
      injection Hn as ->. rewrite (Hl eq_refl). reflexivity.
Qed.

(** X13.  Over any session in which answers arrive only for requests
    that were sent, at most one request is ever waiting for its answer,
    and the loading flag (which also disables the Search button) is set
    exactly while one is. *)
Theorem X13_at_most_one_request_in_flight :
  forall (es : list Event) (s : State) (n : nat),
    outstanding es initial 0 = Some (s, n) ->
    (n <= 1)%nat
    /\ (Home.loading (home s) = true <-> n = 1%nat)
    /\ (SearchForm.searchDisabled (Home.loading (home s)) = false <-> n = 0%nat).
Proof.
  intros es s n Hrun.
  pose proof (outstanding_invariant es initial s 0%nat n eq_refl Hrun) as Hn.
  unfold SearchForm.searchDisabled.
  destruct (Home.loading (home s)); subst n; repeat split;
    intros; try lia; try reflexivity; discriminate.
Qed.

(** Search clicked three times, one answer in between. *)
Lemma X13_witness :
  option_map snd
    (outstanding [Search; Search; SearchSettled (Home.Rejected Home.OtherValue);
                  Search; Search] initial 0) = Some 1%nat.
Proof.
  destruct (outstanding [Search; Search;
                         SearchSettled (Home.Rejected Home.OtherValue);
                         Search; Search] initial 0) as [[s n]|] eqn:E.
  - destruct (X13_at_most_one_request_in_flight _ s n E) as (_ & Hl & _).
    simpl. f_equal. apply Hl.
    vm_compute in E. injection E as <- _. reflexivity.
  - vm_compute in E. discriminate.
Defined.

(** X14.  Reset does not cancel a search that is under way: the page
    keeps waiting, and when the answer comes its rows are installed in
    the state that Reset had emptied. *)
Theorem X14_reset_does_not_cancel_a_search :
  forall (s : State) (response : Api.SearchResponse),
    Home.loading (home s) = true ->
    let s1 := fst (step Reset s) in
    let s2 := fst (step (SearchSettled (Home.Resolved response)) s1) in
    Home.loading (home s1) = true
    /\ Home.showsSpinner (home s1) = true
    /\ Home.results (home s1) = []
    /\ Home.results (home s2) = Api.results response
    /\ Home.loading (home s2) = false
    /\ Home.searchFields (home s2) = Home.emptyFields
    /\ Home.filterText (home s2) = ""
    /\ (Api.results response <> [] -> table s2 <> None).
Proof.
  intros s response Hl s1 s2. subst s2 s1.
  rewrite !step_render. destruct s as [h tb]. simpl in *.
  rewrite Hl. simpl. unfold Home.showsSpinner. simpl.
  repeat split; try exact Hl.
  intros Hne. unfold render. simpl. unfold Home.showsTable. simpl.
  destruct (Api.results response); [congruence|]. simpl.
  destruct (Home.showsTable (Home.handleReset h)); discriminate.
Qed.

(** Reset while the first search is out, then one row comes back. *)
Lemma X14_witness :
  let s1 := fst (step Reset Sample.waiting) in
  let s2 := fst (step (SearchSettled
                         (Home.Resolved (Sample.response [Sample.bob]))) s1) in
  Home.loading (home s1) = true
  /\ Home.results (home s2) = [Sample.bob].
Proof.
  intros s1 s2.
  destruct (X14_reset_does_not_cancel_a_search
              Sample.waiting (Sample.response [Sample.bob]) eq_refl)
    as (H1 & _ & _ & H2 & _).
  split; [exact H1 | exact H2].
Defined.

(** X15.  When a search fails, the rows, the statistics and the filter
    of before are still there and the table comes back with them
    whenever there were rows, under the error banner; but the table
    starts again on page 1 with no row marked as copied, since it was
    taken off the page while the search was under way. *)
Theorem X15_after_a_failed_search_the_table_restarts :
  forall (s : State) (err : Home.Thrown),
    reachable s ->
    Home.loading (home s) = true ->
    let s' := fst (step (SearchSettled (Home.Rejected err)) s) in
    table s = None
    /\ Home.results (home s') = Home.results (home s)
    /\ Home.filterText (home s') = Home.filterText (home s)
    /\ Home.error (home s') = Some (Home.errorMessage err)
    /\ (Home.results (home s) <> [] -> table s' <> None)
    /\ (forall t, table s' = Some t ->
          ResultsTable.currentPage t = 1
          /\ ResultsTable.copiedId t = None).
Proof.
  intros s err Hreach Hl s'. subst s'.
  apply reachable_rendered in Hreach.
  pose proof (loading_unmounts s Hreach Hl) as Ht.
  rewrite step_render. destruct s as [h tb]. simpl in *. subst tb.
  rewrite Hl. simpl. unfold Home.showsTable. simpl.
  split; [reflexivity|]. split; [reflexivity|]. split; [reflexivity|].
  split; [reflexivity|]. split.
  - intros Hne. destruct (Home.results h); [congruence | discriminate].
  - intros t Ht. destruct (Home.results h); simpl in Ht; [discriminate|].
    injection Ht as <-. split; reflexivity.
Qed.

(** On page 2 of 151 rows, a new search fails: the 151 rows come back
    on page 1. *)
Lemma X15_witness :
  let s := fst (step Search Sample.onPageTwo) in
  let s' := fst (step (SearchSettled
                         (Home.Rejected (Home.ErrorObject "Network Error"))) s) in
  option_map ResultsTable.currentPage (table Sample.onPageTwo) = Some 2
  /\ option_map ResultsTable.currentPage (table s') = Some 1
  /\ Home.results (home s') = Home.results (home Sample.onPageTwo).
Proof.
  intros s s'.
  destruct (X15_after_a_failed_search_the_table_restarts
              s (Home.ErrorObject "Network Error")
              (reachable_step _ _ sample_onPageTwo_reachable) eq_refl)
    as (_ & Hr & _ & _ & Hm & Hp).
  fold s' in Hr, Hm, Hp.
  split; [reflexivity|]. split.
  - destruct (table s') as [t|].
    + simpl. f_equal. apply (Hp t eq_refl).
    + exfalso. apply Hm; [vm_compute; discriminate | reflexivity].
  - rewrite Hr. reflexivity.
Defined.

(** X17.  After Reset the table is off the page and the state of
    [Home] is the initial one, but for the search mode and the loading
    flag, which keep their values; on an idle page this leaves the
    invitation to search and neither banner nor spinner; and a second
    Reset changes nothing more. *)
Theorem X17_reset_brings_back_the_initial_page :
  forall (s : State),
    let s' := fst (step Reset s) in
    table s' = None
    /\ home s' = Home.setLoading (Home.loading (home s))
                   (Home.setSearchMode (Home.searchMode (home s)) Home.initial)
    /\ fst (step Reset s') = s'
    /\ (Home.loading (home s) = false ->
          Home.showsPlaceholder (home s') = true
          /\ Home.showsBanner (home s') = false
          /\ Home.showsSpinner (home s') = false).
Proof.
  intros s s'. subst s'. rewrite !step_render.
  destruct s as [h tb]. simpl.
  unfold render, Home.showsTable. simpl. rewrite !andb_false_r.
  split; [reflexivity|]. split; [reflexivity|]. split; [reflexivity|].
  intros Hidle. repeat split.
  - unfold Home.showsPlaceholder. simpl. rewrite Hidle. reflexivity.
  - unfold Home.showsSpinner. simpl. exact Hidle.
Qed.

(** Reset on page 2 of 151 rows with the mode left as it was. *)
Lemma X17_witness :
  table (fst (step Reset Sample.onPageTwo)) = None
  /\ Home.showsPlaceholder (home (fst (step Reset Sample.onPageTwo))) = true.
Proof.
  destruct (X17_reset_brings_back_the_initial_page Sample.onPageTwo)
    as (H1 & _ & _ & H2).
  split; [exact H1|]. apply H2. reflexivity.
Defined.

End Session.

(** ** Row ids and the copied mark *)

Section RowIds.
Import Api.

Lemma digits_dashFree (d : uint) :
  Spec.dashFree (NilEmpty.string_of_uint d) = true.
Proof. induction d; simpl; auto. Qed.

Lemma numberToString_dashFree (n : Z) :
  0 <= n -> Spec.dashFree (JS.numberToString n) = true.
Proof.
  intros Hn. unfold JS.numberToString.
  destruct n as [|p|p]; [reflexivity | | lia].
  simpl. unfold NilZero.string_of_uint.
  destruct (Pos.to_uint p); try apply digits_dashFree. reflexivity.
Qed.

Lemma to_int_proper (n : Z) : Z.to_int n <> Pos Nil /\ Z.to_int n <> Neg Nil.
Proof.
  destruct n as [|p|p]; simpl; split; try discriminate;
    intros [= H]; exact (DecimalPos.Unsigned.to_uint_nonnil p H).
Qed.

Lemma numberToString_injective (a b : Z) :
  JS.numberToString a = JS.numberToString b -> a = b.
Proof.
  unfold JS.numberToString. intros H.
  apply DecimalZ.to_int_inj.
  destruct (to_int_proper a) as [Ha1 Ha2].
  destruct (to_int_proper b) as [Hb1 Hb2].
  pose proof (NilZero.isi (Z.to_int a) Ha1 Ha2) as Ia.
  pose proof (NilZero.isi (Z.to_int b) Hb1 Hb2) as Ib.
  rewrite H in Ia. congruence.
Qed.

Lemma afterLastDash_dashFree (d : string) :
  Spec.dashFree d = true -> Spec.afterLastDash d = None.
Proof.
  induction d as [|c d IH]; simpl; [reflexivity|].
  rewrite andb_true_iff. intros [Hc Hd].
  rewrite (IH Hd), Hc. reflexivity.
Qed.

Lemma afterLastDash_suffix (x d : string) :
  Spec.dashFree d = true ->
  Spec.afterLastDash (x ++ "-" ++ d) = Some d.
Proof.
  intros Hd. induction x as [|c x IH]; simpl.
  - rewrite (afterLastDash_dashFree d Hd). reflexivity.
  - simpl in IH. rewrite IH. reflexivity.
Qed.

Lemma rowId_index (currentPage : Z) (r1 r2 : SearchResult) (i j : Z) :
  0 <= ResultsTable.startIndex currentPage + i ->
  0 <= ResultsTable.startIndex currentPage + j ->
  ResultsTable.rowId currentPage r1 i = ResultsTable.rowId currentPage r2 j ->
  i = j.
Proof.
  intros Hi Hj. unfold ResultsTable.rowId.
  rewrite <- !string_app_assoc.
  rewrite 2 (string_app_assoc _ "-" (JS.numberToString _)).
  intros H. apply (f_equal Spec.afterLastDash) in H.
  rewrite !afterLastDash_suffix in H by (apply numberToString_dashFree; assumption).
  injection H as H. apply numberToString_injective in H. lia.
Qed.

Lemma mapIndexed_In {A B : Type} (f : A -> Z -> B) (l : list A) :
  forall (i : Z) (y : B),
    In y (JS.mapIndexed f l i) -> exists x j, i <= j /\ y = f x j.
Proof.
  induction l as [|x l IH]; intros i y; simpl; [contradiction|].
  intros [<- | H].
  - exists x, i. split; [lia | reflexivity].
  - destruct (IH (i + 1) y H) as (x' & j & Hj & ->).
    exists x', j. split; [lia | reflexivity].
Qed.

Lemma rowIds_from_NoDup (currentPage : Z) (l : list SearchResult) :
  forall i, 0 <= ResultsTable.startIndex currentPage + i ->
            NoDup (JS.mapIndexed (ResultsTable.rowId currentPage) l i).
Proof.
  induction l as [|r l IH]; intros i Hi; simpl; constructor.
  - intros Hin. apply mapIndexed_In in Hin.
    destruct Hin as (r' & j & Hj & Heq).
    apply rowId_index in Heq; lia.
  - apply IH. lia.
Qed.

(** X16.  On the page shown (the current page being 1 or more) no two
    rows have the same row id; and after a row has been copied, the
    copied mark is on the rows with that id and on no other: so exactly
    the row that was copied is marked. *)
Theorem X16_row_ids_are_distinct_and_mark_one_row :
  forall (filtered : list SearchResult) (currentPage : Z),
    1 <= currentPage ->
    let ids := ResultsTable.rowIds filtered currentPage in
    NoDup ids
    /\ List.length ids
       = List.length (ResultsTable.paginatedResults filtered currentPage)
    /\ (forall (text : string) (st : ResultsTable.State) (i j : nat) (a b : string),
          nth_error ids i = Some a ->
          nth_error ids j = Some b ->
          let st' := fst (ResultsTable.copyToClipboard text a true st) in
          ResultsTable.isCopied st' b = true <-> i = j).
Proof.
  intros filtered currentPage Hp ids.
  assert (Hnd : NoDup ids).
  { subst ids. unfold ResultsTable.rowIds. apply rowIds_from_NoDup.
    unfold ResultsTable.startIndex, ResultsTable.RESULTS_PER_PAGE. lia. }
  split; [exact Hnd|]. split.
  - subst ids. unfold ResultsTable.rowIds.
    generalize 0.
    induction (ResultsTable.paginatedResults filtered currentPage);
      intros z; simpl; [reflexivity | f_equal; auto].
  - intros text st i j a b Ha Hb st'. subst st'.
    unfold ResultsTable.copyToClipboard, ResultsTable.isCopied. simpl.
    rewrite String.eqb_eq. split.
    + intros ->.
      apply (proj1 (NoDup_nth_error ids) Hnd i j).
      * apply nth_error_Some. congruence.
      * congruence.
    + intros ->. congruence.
Qed.

(** Two records with the same master_id and mobile still get two ids. *)
Lemma X16_witness :
  ResultsTable.rowIds [Sample.ann; Sample.ann] 1 = ["7-5550101-0"; "7-5550101-1"]
  /\ NoDup (ResultsTable.rowIds [Sample.ann; Sample.ann] 1).
Proof.
  split; [reflexivity|].
  apply (X16_row_ids_are_distinct_and_mark_one_row [Sample.ann; Sample.ann] 1).
  lia.
Defined.

End RowIds.
